(** * Jellyfin Terraform provider: the REST client and the key lifecycle

    A shallow embedding of [internal/client] (the authenticated REST client)
    and of the [Create] and data-source [Read] callbacks of
    [internal/provider], with the properties of the specification proved
    over it.

    Go strings are byte sequences and are modelled by [string]; Go's [int]
    and [int64] are modelled by [Z] (no arithmetic is performed on them, they
    are only compared and printed); an [error] is observed through its
    message.  The network, the URL parser behind
    [http.NewRequestWithContext] and the JSON codec are the environment: they
    are the fields of [Env], over which every statement quantifies. *)

From Stdlib Require Import ZArith String Ascii List Bool Lia DecimalString.
From stdpp Require Import base option list gmap strings.
Import ListNotations.

Local Open Scope Z_scope.
Local Open Scope list_scope.
Local Open Scope string_scope.

(** ** Go values *)

(** An [error] value, observed through [Error()]. *)
Definition error := string.

(** A Go result pair [(T, error)]: exactly one side is meaningful. *)
Inductive result (A : Type) : Type :=
| Ok (a : A)
| Err (e : error).
Arguments Ok {A} a.
Arguments Err {A} e.

Definition is_Err {A} (r : result A) : Prop :=
  match r with Err _ => True | Ok _ => False end.

(** The double-quote character, which the header formats contain. *)
Definition dquote : string := String (ascii_of_nat 34) EmptyString.

(** [fmt.Sprintf("%d", n)]. *)
Definition fmt_d (n : Z) : string := NilZero.string_of_int (Z.to_int n).

(** [strings.Contains(s, sub)], as a proposition. *)
Definition Contains (s sub : string) : Prop :=
  exists pre post : string, s = pre +:+ sub +:+ post.

(** [strings.HasSuffix] and [strings.TrimSuffix]. *)
Definition HasSuffix (s suffix : string) : bool :=
  (String.length suffix <=? String.length s)%nat
  && String.eqb
       (substring (String.length s - String.length suffix)
                  (String.length suffix) s)
       suffix.

Definition TrimSuffix (s suffix : string) : string :=
  if HasSuffix s suffix
  then substring 0 (String.length s - String.length suffix) s
  else s.

(** ** net/http, as far as the client uses it *)

Module http.

Inductive Method := MethodGet | MethodPost | MethodDelete.

Definition StatusOK : Z := 200.
Definition StatusNoContent : Z := 204.

(** A request: method, the URL string handed to [NewRequestWithContext],
    the header (most recent [Set] first) and the body, if any. *)
Record Request := mkRequest {
  Method_ : Method;
  URL : string;
  Header : list (string * string);
  ReqBody : option string
}.

(** A response: status code and the body as [io.ReadAll] returns it. *)
Record Response := mkResponse {
  StatusCode : Z;
  Body : string
}.

(** [req.Header.Set(k, v)]: replaces whatever [k] was bound to. *)
Definition Header_Set (req : Request) (k v : string) : Request :=
  {| Method_ := Method_ req;
     URL := URL req;
     Header := (k, v) :: filter (fun kv => negb (String.eqb (fst kv) k)) (Header req);
     ReqBody := ReqBody req |}.

(** [req.Header.Get(k)]. *)
Definition Header_Get (req : Request) (k : string) : option string :=
  match find (fun kv => String.eqb (fst kv) k) (Header req) with
  | Some kv => Some (snd kv)
  | None => None
  end.

End http.
Import http.

(** ** net/url: percent-encoding

    [url.QueryEscape] and [url.PathEscape] are the standard library's
    [escape] at the modes [encodeQueryComponent] and [encodePathSegment];
    [url.QueryUnescape], [url.PathUnescape] and [url.ParseQuery] are what a
    server decodes with.  Only the two modes the client reaches are
    modelled. *)

Module url.

Inductive encoding := encodePathSegment | encodeQueryComponent.

Definition is_query (mode : encoding) : bool :=
  match mode with encodeQueryComponent => true | encodePathSegment => false end.

Definition between (lo hi c : ascii) : bool :=
  (nat_of_ascii lo <=? nat_of_ascii c)%nat && (nat_of_ascii c <=? nat_of_ascii hi)%nat.

Definition one_of (cs : list ascii) (c : ascii) : bool :=
  existsb (Ascii.eqb c) cs.

Definition ishex (c : ascii) : bool :=
  between "0" "9" c || between "a" "f" c || between "A" "F" c.

Definition unhex (c : ascii) : nat :=
  if between "0" "9" c then nat_of_ascii c - nat_of_ascii "0"
  else if between "a" "f" c then nat_of_ascii c - nat_of_ascii "a" + 10
  else if between "A" "F" c then nat_of_ascii c - nat_of_ascii "A" + 10
  else 0.

Definition shouldEscape (c : ascii) (mode : encoding) : bool :=
  if between "a" "z" c || between "A" "Z" c || between "0" "9" c then false
  else if one_of ["-"; "_"; "."; "~"]%char c then false
  else if one_of ["$"; "&"; "+"; ","; "/"; ":"; ";"; "="; "?"; "@"]%char c then
    match mode with
    | encodePathSegment => one_of ["/"; ";"; ","; "?"]%char c
    | encodeQueryComponent => true
    end
  else true.

(** [upperhex[n]], for [n < 16]. *)
Definition upperhex (n : nat) : ascii :=
  match String.get n "0123456789ABCDEF" with
  | Some c => c
  | None => "0"%char
  end.

(** [escape]: the loop that fills the output buffer.  (The counting loop
    before it only sizes the buffer, and returns [s] itself when no byte
    needs escaping, which is also what this loop produces.) *)
Fixpoint escape (s : string) (mode : encoding) : string :=
  match s with
  | EmptyString => EmptyString
  | String c rest =>
      if Ascii.eqb c " " && is_query mode then
        String "+" (escape rest mode)
      else if shouldEscape c mode then
        String "%"
          (String (upperhex (Nat.shiftr (nat_of_ascii c) 4))
             (String (upperhex (Nat.land (nat_of_ascii c) 15))
                (escape rest mode)))
      else String c (escape rest mode)
  end.

Definition QueryEscape (s : string) : string := escape s encodeQueryComponent.
Definition PathEscape (s : string) : string := escape s encodePathSegment.

(** [unescape]: [None] stands for the [EscapeError] returned when a [%]
    is not followed by two hexadecimal digits. *)
Fixpoint unescape (s : string) (mode : encoding) : option string :=
  match s with
  | EmptyString => Some EmptyString
  | String c rest =>
      if Ascii.eqb c "%" then
        match rest with
        | String h1 (String h2 rest') =>
            if ishex h1 && ishex h2 then
              option_map
                (String (ascii_of_nat (Nat.lor (Nat.shiftl (unhex h1) 4) (unhex h2))))
                (unescape rest' mode)
            else None
        | _ => None
        end
      else if Ascii.eqb c "+" then
        option_map (String (if is_query mode then " " else "+")%char) (unescape rest mode)
      else option_map (String c) (unescape rest mode)
  end.

Definition QueryUnescape (s : string) : option string := unescape s encodeQueryComponent.
Definition PathUnescape (s : string) : option string := unescape s encodePathSegment.

(** [strings.Cut(s, sep)] for a one-byte separator: the text before the
    first [sep], and the text after it when there is one. *)
Fixpoint Cut (s : string) (sep : ascii) : string * option string :=
  match s with
  | EmptyString => (EmptyString, None)
  | String c rest =>
      if Ascii.eqb c sep then (EmptyString, Some rest)
      else let (before, after) := Cut rest sep in (String c before, after)
  end.

(** [strings.Split(s, sep)] for a one-byte separator. *)
Fixpoint Split (s : string) (sep : ascii) : list string :=
  match s with
  | EmptyString => [EmptyString]
  | String c rest =>
      if Ascii.eqb c sep then EmptyString :: Split rest sep
      else match Split rest sep with
           | seg :: segs => String c seg :: segs
           | [] => [String c EmptyString]
           end
  end.

Fixpoint has_byte (s : string) (c : ascii) : bool :=
  match s with
  | EmptyString => false
  | String c' rest => Ascii.eqb c' c || has_byte rest c
  end.

(** One iteration of the loop of [parseQuery] on the piece between two
    [&]: the pair it appends to the values, if any. *)
Definition parseQuery_item (key : string) : option (string * string) :=
  if has_byte key ";" then None
  else if String.eqb key "" then None
  else
    let (k, v) := Cut key "=" in
    match QueryUnescape k with
    | None => None
    | Some k' =>
        match QueryUnescape (default "" v) with
        | None => None
        | Some v' => Some (k', v')
        end
    end.

(** [url.ParseQuery], errors dropped as [URL.Query] drops them: the
    pairs in order of appearance. *)
Definition ParseQuery (query : string) : list (string * string) :=
  omap parseQuery_item (Split query "&").

(** [Values.Get]: the first value of [key], or the empty string. *)
Definition Values_Get (vs : list (string * string)) (key : string) : string :=
  match find (fun kv => String.eqb (fst kv) key) vs with
  | Some kv => snd kv
  | None => ""
  end.

(** The raw query of a request target: what follows the first [?]. *)
Definition RawQuery (target : string) : string :=
  default "" (snd (Cut target "?")).

(** The raw path of a request target: what precedes the first [?]. *)
Definition RawPath (target : string) : string := fst (Cut target "?").

End url.

(** ** Computations that talk to the server *)

Module io.

(** The world a call runs in: the server, and the requests handed to the
    transport so far, one for each call of [Do], oldest first.  What the
    transport does with a request it is handed (it may fail before anything
    is sent, as on a cancelled context, or make further hops to follow a
    redirect) is its own affair and is not recorded. *)
Record World (Server : Type) := mkWorld {
  server : Server;
  wire : list Request
}.
Arguments mkWorld {Server} _ _.
Arguments server {Server} _.
Arguments wire {Server} _.

Definition M (Server A : Type) : Type := World Server -> A * World Server.

Definition ret {Server A} (a : A) : M Server A := fun w => (a, w).

Definition bind {Server A B} (c : M Server A) (k : A -> M Server B) : M Server B :=
  fun w => let (a, w') := c w in k a w'.

Declare Scope io_scope.
Delimit Scope io_scope with io.
Notation "x <- c ;; k" := (bind c (fun x => k))
  (at level 100, c at next level, right associativity) : io_scope.

End io.
Import io.

(** ** The client: [internal/client] *)

Module client.

Definition DefaultClientName : string := "Terraform".
Definition DefaultDeviceName : string := "Terraform Provider".
Definition DefaultDeviceID : string := "terraform-provider-jellyfin".
Definition DefaultClientVersion : string := "1.0.0".

(** [Client]; its [httpClient] is always [http.DefaultClient], which is
    the transport of the environment. *)
Record Client := mkClient {
  endpoint : string;
  accessToken : string
}.

Record ClientConfig := mkClientConfig {
  Endpoint : string;
  ClientName : string;
  DeviceName : string;
  DeviceID : string;
  ClientVersion : string
}.

Record AuthenticateRequest := mkAuthenticateRequest {
  Username : string;
  Pw : string
}.

Record AuthenticateResponse := mkAuthenticateResponse {
  auth_AccessToken : string;
  ServerId : string;
  User_Id : string;
  User_Name : string;
  SessionInfo_Id : string
}.

(** [APIKey].  The three strings are the fields of the struct declaration;
    [Id] is the [int64] field that [api_key_resource.go] reads as [key.Id]
    and uses as the key of its [map[int64]bool].  Nothing is assumed of it:
    the statements hold whatever identifiers the listed keys carry. *)
Record APIKey := mkAPIKey {
  Id : Z;
  AccessToken : string;
  AppName : string;
  DateCreated : string
}.

Record APIKeyQueryResult := mkAPIKeyQueryResult {
  Items : list APIKey;
  TotalRecordCount : Z;
  StartIndex : Z
}.

(** What the client cannot decide by itself.  [url_error u] is the error
    of [http.NewRequestWithContext] on the URL [u] (the methods are
    constants and always valid); [Do] is [http.DefaultClient.Do] against a
    server in some state, cancellation of the caller's context included;
    the three JSON functions are [encoding/json] at the three types the
    client uses.  Marshalling a struct of two strings has no failing
    input, so [json_Marshal] is total. *)
Record Env (Server : Type) := mkEnv {
  url_error : string -> option error;
  Do : Request -> Server -> result Response * Server;
  json_Marshal : AuthenticateRequest -> string;
  json_Decode_auth : string -> result AuthenticateResponse;
  json_Decode_keys : string -> result APIKeyQueryResult
}.
Arguments url_error {Server} _ _.
Arguments Do {Server} _ _ _.
Arguments json_Marshal {Server} _ _.
Arguments json_Decode_auth {Server} _ _.
Arguments json_Decode_keys {Server} _ _.

Section Operations.

Context {Server : Type} (env : Env Server).

Local Open Scope io_scope.

(** [http.NewRequestWithContext(ctx, method, url, body)]. *)
Definition NewRequestWithContext (method : Method) (url : string)
    (body : option string) : result Request :=
  match url_error env url with
  | Some e => Err e
  | None => Ok {| Method_ := method; URL := url; Header := []; ReqBody := body |}
  end.

(** [http.DefaultClient.Do(req)]: one call of the transport, which the
    world records whatever the transport answers. *)
Definition httpDo (req : Request) : M Server (result Response) :=
  fun w =>
    let (r, s) := Do env req (server w) in
    (r, {| server := s; wire := wire w ++ [req] |}).

(** The value of the [Authorization] header of authorized requests. *)
Definition token_header (tok : string) : string :=
  "MediaBrowser Token=" +:+ dquote +:+ tok +:+ dquote.

Definition doRequest (c : Client) (method : Method) (path : string)
  : M Server (result Response) :=
  match NewRequestWithContext method (endpoint c +:+ path) None with
  | Err err => ret (Err ("failed to create request: " +:+ err))
  | Ok req =>
      let req := Header_Set req "Authorization" (token_header (accessToken c)) in
      r <- httpDo req ;;
      match r with
      | Err err => ret (Err ("failed to execute request: " +:+ err))
      | Ok resp => ret (Ok resp)
      end
  end.

(** The message of a failed API call. *)
Definition api_failure (resp : Response) : error :=
  "API request failed with status " +:+ fmt_d (StatusCode resp) +:+ ": " +:+ Body resp.

Definition GetKeys (c : Client) : M Server (result APIKeyQueryResult) :=
  r <- doRequest c MethodGet "/Auth/Keys" ;;
  match r with
  | Err err => ret (Err err)
  | Ok resp =>
      if negb (StatusCode resp =? StatusOK)%Z
      then ret (Err (api_failure resp))
      else match json_Decode_keys env (Body resp) with
           | Err err => ret (Err ("failed to decode response: " +:+ err))
           | Ok result => ret (Ok result)
           end
  end.

(** The loop of [GetKey]: the first item whose [AccessToken] is the one
    sought, [None] for Go's [nil]. *)
Fixpoint GetKey_scan (items : list APIKey) (accessToken : string) : option APIKey :=
  match items with
  | [] => None
  | key :: rest =>
      if String.eqb (AccessToken key) accessToken then Some key
      else GetKey_scan rest accessToken
  end.

Definition GetKey (c : Client) (accessToken : string)
  : M Server (result (option APIKey)) :=
  r <- GetKeys c ;;
  match r with
  | Err err => ret (Err err)
  | Ok result => ret (Ok (GetKey_scan (Items result) accessToken))
  end.

(** The loop of [FindKeyByAppName]. *)
Fixpoint FindKeyByAppName_scan (items : list APIKey) (appName : string) : option APIKey :=
  match items with
  | [] => None
  | key :: rest =>
      if String.eqb (AppName key) appName then Some key
      else FindKeyByAppName_scan rest appName
  end.

Definition FindKeyByAppName (c : Client) (appName : string)
  : M Server (result (option APIKey)) :=
  r <- GetKeys c ;;
  match r with
  | Err err => ret (Err err)
  | Ok result => ret (Ok (FindKeyByAppName_scan (Items result) appName))
  end.

(** Modelled from the spec: [GetKeyByAccessToken], which the provider
    layer calls and the client file does not declare.  The
    specification has it as "GetKeys, then linear scan for matching
    AccessToken", yielding the "matching key or not found (nil, no
    error)" and propagating the errors of [GetKeys]. *)
Definition GetKeyByAccessToken (c : Client) (token : string)
  : M Server (result (option APIKey)) :=
  r <- GetKeys c ;;
  match r with
  | Err err => ret (Err err)
  | Ok result =>
      ret (Ok (find (fun key => String.eqb (AccessToken key) token) (Items result)))
  end.

Definition CreateKey (c : Client) (appName : string) : M Server (option error) :=
  let path := "/Auth/Keys?app=" +:+ url.QueryEscape appName in
  r <- doRequest c MethodPost path ;;
  match r with
  | Err err => ret (Some err)
  | Ok resp =>
      if negb (StatusCode resp =? StatusNoContent)%Z && negb (StatusCode resp =? StatusOK)%Z
      then ret (Some (api_failure resp))
      else ret None
  end.

Definition DeleteKey (c : Client) (accessToken : string) : M Server (option error) :=
  let path := "/Auth/Keys/" +:+ url.PathEscape accessToken in
  r <- doRequest c MethodDelete path ;;
  match r with
  | Err err => ret (Some err)
  | Ok resp =>
      if negb (StatusCode resp =? StatusNoContent)%Z && negb (StatusCode resp =? StatusOK)%Z
      then ret (Some (api_failure resp))
      else ret None
  end.

(** [NewClient]: no network call, no validation. *)
Definition NewClient (endpoint accessToken : string) : Client :=
  {| endpoint := TrimSuffix endpoint "/"; accessToken := accessToken |}.

(** The value of the [Authorization] header of the authentication
    request. *)
Definition identification_header (clientName deviceName deviceID clientVersion : string)
  : string :=
  "MediaBrowser Client=" +:+ dquote +:+ clientName +:+ dquote
  +:+ ", Device=" +:+ dquote +:+ deviceName +:+ dquote
  +:+ ", DeviceId=" +:+ dquote +:+ deviceID +:+ dquote
  +:+ ", Version=" +:+ dquote +:+ clientVersion +:+ dquote.

(** [if field != "" { name = field }]. *)
Definition override (name field : string) : string :=
  if negb (String.eqb field "") then field else name.

Definition NewClientWithAuthAndConfig (endpoint username password : string)
    (config : option ClientConfig) : M Server (result Client) :=
  let endpoint := TrimSuffix endpoint "/" in
  let clientName := DefaultClientName in
  let deviceName := DefaultDeviceName in
  let deviceID := DefaultDeviceID in
  let clientVersion := DefaultClientVersion in
  let '(clientName, deviceName, deviceID, clientVersion) :=
    match config with
    | Some config =>
        (override clientName (ClientName config),
         override deviceName (DeviceName config),
         override deviceID (DeviceID config),
         override clientVersion (ClientVersion config))
    | None => (clientName, deviceName, deviceID, clientVersion)
    end in
  let authReq := {| Username := username; Pw := password |} in
  let body := json_Marshal env authReq in
  match NewRequestWithContext MethodPost (endpoint +:+ "/Users/AuthenticateByName")
          (Some body) with
  | Err err => ret (Err ("failed to create auth request: " +:+ err))
  | Ok req =>
      let req := Header_Set req "Content-Type" "application/json" in
      let req := Header_Set req "Authorization"
                   (identification_header clientName deviceName deviceID clientVersion) in
      r <- httpDo req ;;
      match r with
      | Err err => ret (Err ("failed to authenticate: " +:+ err))
      | Ok resp =>
          if negb (StatusCode resp =? StatusOK)%Z then
            ret (Err ("authentication failed with status "
                      +:+ fmt_d (StatusCode resp) +:+ ": " +:+ Body resp))
          else
            match json_Decode_auth env (Body resp) with
            | Err err => ret (Err ("failed to decode auth response: " +:+ err))
            | Ok authResp =>
                if String.eqb (auth_AccessToken authResp) "" then
                  ret (Err "authentication succeeded but no access token returned")
                else
                  ret (Ok {| endpoint := endpoint;
                             accessToken := auth_AccessToken authResp |})
            end
      end
  end.

Definition NewClientWithAuth (endpoint username password : string)
  : M Server (result Client) :=
  NewClientWithAuthAndConfig endpoint username password None.

End Operations.

End client.

(** ** The plugin framework, as far as the callbacks use it *)

Module types.

(** [types.String]: null, unknown, or a known value. *)
Inductive String_ :=
| StringNull
| StringUnknown
| StringValue (s : string).

Definition IsNull (v : String_) : bool :=
  match v with StringNull => true | _ => false end.

Definition IsUnknown (v : String_) : bool :=
  match v with StringUnknown => true | _ => false end.

(** [ValueString]: the empty string when null or unknown. *)
Definition ValueString (v : String_) : string :=
  match v with StringValue s => s | _ => "" end.

End types.

Module diag.

Inductive Severity := SeverityError | SeverityWarning.

Record Diagnostic := mkDiagnostic {
  severity : Severity;
  Summary : string;
  Detail : string
}.

Definition Diagnostics := list Diagnostic.

Definition Severity_eqb (a b : Severity) : bool :=
  match a, b with
  | SeverityError, SeverityError | SeverityWarning, SeverityWarning => true
  | _, _ => false
  end.

Definition Equal (a b : Diagnostic) : bool :=
  Severity_eqb (severity a) (severity b)
  && String.eqb (Summary a) (Summary b)
  && String.eqb (Detail a) (Detail b).

Definition Contains (ds : Diagnostics) (d : Diagnostic) : bool :=
  existsb (Equal d) ds.

(** [Append]: adds the diagnostics that are not already present. *)
Definition Append (ds new : Diagnostics) : Diagnostics :=
  fold_left (fun acc d => if Contains acc d then acc else (acc ++ [d])%list) new ds.

Definition AddError (ds : Diagnostics) (summary detail : string) : Diagnostics :=
  Append ds [mkDiagnostic SeverityError summary detail].

Definition HasError (ds : Diagnostics) : bool :=
  existsb (fun d => Severity_eqb (severity d) SeverityError) ds.

End diag.

(** ** The managed resource: [api_key_resource.go] *)

Module api_key_resource.
Import types.

Record APIKeyResource := mkAPIKeyResource {
  client : client.Client
}.

Record APIKeyResourceModel := mkAPIKeyResourceModel {
  ID : String_;
  AppName : String_;
  AccessToken : String_;
  DateCreated : String_
}.

(** [resource.CreateRequest]: [Plan_Get] is what [req.Plan.Get(ctx, &data)]
    yields, the diagnostics and the decoded plan. *)
Record CreateRequest := mkCreateRequest {
  Plan_Get : diag.Diagnostics * APIKeyResourceModel
}.

(** [resource.CreateResponse]: the diagnostics and the state, [None] while
    nothing has been written. *)
Record CreateResponse := mkCreateResponse {
  Diagnostics : diag.Diagnostics;
  State : option APIKeyResourceModel
}.

Definition Diagnostics_Append (resp : CreateResponse) (new : diag.Diagnostics)
  : CreateResponse :=
  {| Diagnostics := diag.Append (Diagnostics resp) new; State := State resp |}.

Definition Diagnostics_AddError (resp : CreateResponse) (summary detail : string)
  : CreateResponse :=
  {| Diagnostics := diag.AddError (Diagnostics resp) summary detail; State := State resp |}.

(** [resp.Diagnostics.Append(resp.State.Set(ctx, &data)...)]: the model
    has the shape of the schema, so [Set] stores it and reports nothing. *)
Definition State_Set (resp : CreateResponse) (data : APIKeyResourceModel)
  : CreateResponse :=
  Diagnostics_Append {| Diagnostics := Diagnostics resp; State := Some data |} [].

(** The first loop of [Create]: [existingIDs[key.Id] = true] for every
    listed key, from the empty map. *)
Definition snapshot (items : list client.APIKey) : gmap Z bool :=
  fold_left (fun existingIDs key => <[client.Id key := true]> existingIDs) items ∅.

(** [existingIDs[id]]: a missing entry reads as [false]. *)
Definition index (existingIDs : gmap Z bool) (id : Z) : bool :=
  default false (existingIDs !! id).

(** The second loop of [Create]: the first key that is not in the
    snapshot and carries the requested name. *)
Fixpoint Create_scan (existingIDs : gmap Z bool) (items : list client.APIKey)
    (appName : string) : option client.APIKey :=
  match items with
  | [] => None
  | key :: rest =>
      if negb (index existingIDs (client.Id key)) && String.eqb (client.AppName key) appName
      then Some key
      else Create_scan existingIDs rest appName
  end.

Section Callbacks.

Context {Server : Type} (env : client.Env Server).

Local Open Scope io_scope.

Definition Create (r : APIKeyResource) (req : CreateRequest) (resp : CreateResponse)
  : M Server CreateResponse :=
  let (diags, data) := Plan_Get req in
  let resp := Diagnostics_Append resp diags in
  if diag.HasError (Diagnostics resp) then ret resp
  else
    let appName := ValueString (AppName data) in
    got <- client.GetKeys env (client r) ;;
    match got with
    | Err err =>
        ret (Diagnostics_AddError resp "Client Error"
               ("Unable to list existing API keys: " +:+ err))
    | Ok existingKeys =>
        let existingIDs := snapshot (client.Items existingKeys) in
        created <- client.CreateKey env (client r) appName ;;
        match created with
        | Some err =>
            ret (Diagnostics_AddError resp "Client Error"
                   ("Unable to create API key: " +:+ err))
        | None =>
            got <- client.GetKeys env (client r) ;;
            match got with
            | Err err =>
                ret (Diagnostics_AddError resp "Client Error"
                       ("Unable to list API keys after creation: " +:+ err))
            | Ok newKeys =>
                match Create_scan existingIDs (client.Items newKeys) appName with
                | None =>
                    ret (Diagnostics_AddError resp "Client Error"
                           "Unable to find the newly created API key")
                | Some createdKey =>
                    let data :=
                      {| ID := StringValue (client.AccessToken createdKey);
                         AppName := AppName data;
                         AccessToken := StringValue (client.AccessToken createdKey);
                         DateCreated := StringValue (client.DateCreated createdKey) |} in
                    ret (State_Set resp data)
                end
            end
        end
    end.

End Callbacks.

End api_key_resource.

(** ** The data source: [api_key_data_source.go] *)

Module api_key_data_source.
Import types.

Record APIKeyDataSource := mkAPIKeyDataSource {
  client : client.Client
}.

Record APIKeyDataSourceModel := mkAPIKeyDataSourceModel {
  ID : String_;
  AppName : String_;
  AccessToken : String_;
  DateCreated : String_
}.

(** [datasource.ReadRequest]: [Config_Get] is what
    [req.Config.Get(ctx, &data)] yields. *)
Record ReadRequest := mkReadRequest {
  Config_Get : diag.Diagnostics * APIKeyDataSourceModel
}.

Record ReadResponse := mkReadResponse {
  Diagnostics : diag.Diagnostics;
  State : option APIKeyDataSourceModel
}.

Definition Diagnostics_Append (resp : ReadResponse) (new : diag.Diagnostics)
  : ReadResponse :=
  {| Diagnostics := diag.Append (Diagnostics resp) new; State := State resp |}.

Definition Diagnostics_AddError (resp : ReadResponse) (summary detail : string)
  : ReadResponse :=
  {| Diagnostics := diag.AddError (Diagnostics resp) summary detail; State := State resp |}.

Definition State_Set (resp : ReadResponse) (data : APIKeyDataSourceModel)
  : ReadResponse :=
  Diagnostics_Append {| Diagnostics := Diagnostics resp; State := Some data |} [].

Definition hasAppName (data : APIKeyDataSourceModel) : bool :=
  negb (IsNull (AppName data)) && negb (IsUnknown (AppName data)).

Definition hasAccessToken (data : APIKeyDataSourceModel) : bool :=
  negb (IsNull (AccessToken data)) && negb (IsUnknown (AccessToken data)).

Section Callbacks.

Context {Server : Type} (env : client.Env Server).

Local Open Scope io_scope.

Definition Read (d : APIKeyDataSource) (req : ReadRequest) (resp : ReadResponse)
  : M Server ReadResponse :=
  let (diags, data) := Config_Get req in
  let resp := Diagnostics_Append resp diags in
  if diag.HasError (Diagnostics resp) then ret resp
  else if negb (hasAppName data) && negb (hasAccessToken data) then
    ret (Diagnostics_AddError resp "Missing Required Attribute"
           "Either 'app_name' or 'access_token' must be provided to look up an API key.")
  else
    got <- (if hasAccessToken data
            then client.GetKeyByAccessToken env (client d) (ValueString (AccessToken data))
            else client.FindKeyByAppName env (client d) (ValueString (AppName data))) ;;
    match got with
    | Err err =>
        ret (Diagnostics_AddError resp "Client Error"
               ("Unable to read API key: " +:+ err))
    | Ok None =>
        ret (Diagnostics_AddError resp "API Key Not Found"
               "The specified API key was not found.")
    | Ok (Some key) =>
        let data :=
          {| ID := StringValue (client.AccessToken key);
             AppName := StringValue (client.AppName key);
             AccessToken := StringValue (client.AccessToken key);
             DateCreated := StringValue (client.DateCreated key) |} in
        ret (State_Set resp data)
    end.

End Callbacks.

End api_key_data_source.

(** ** The rest of the resource: [Read], [Delete] and [Configure] *)

Module framework.

(** A value of Go's [any], as far as the [Configure] callbacks tell values
    apart: the nil interface, a [*client.Client] (which may be a nil
    pointer), or a value of another type, with the name [%T] prints. *)
Inductive any :=
| AnyNil
| AnyClient (c : option client.Client)
| AnyOther (typeName : string).

End framework.

Module api_key_resource_Read.
Import types.

(** [resource.ReadRequest]: [State_Get] is what [req.State.Get(ctx, &data)]
    yields. *)
Record ReadRequest := mkReadRequest {
  State_Get : diag.Diagnostics * api_key_resource.APIKeyResourceModel
}.

(** [resource.ReadResponse]: [State] is [None] once the resource is
    removed. *)
Record ReadResponse := mkReadResponse {
  Diagnostics : diag.Diagnostics;
  State : option api_key_resource.APIKeyResourceModel
}.

Definition Diagnostics_Append (resp : ReadResponse) (new : diag.Diagnostics)
  : ReadResponse :=
  {| Diagnostics := diag.Append (Diagnostics resp) new; State := State resp |}.

Definition Diagnostics_AddError (resp : ReadResponse) (summary detail : string)
  : ReadResponse :=
  {| Diagnostics := diag.AddError (Diagnostics resp) summary detail; State := State resp |}.

(** [resp.State.RemoveResource(ctx)]. *)
Definition State_RemoveResource (resp : ReadResponse) : ReadResponse :=
  {| Diagnostics := Diagnostics resp; State := None |}.

(** [resp.Diagnostics.Append(resp.State.Set(ctx, &data)...)], with a model
    of the shape of the schema. *)
Definition State_Set (resp : ReadResponse) (data : api_key_resource.APIKeyResourceModel)
  : ReadResponse :=
  Diagnostics_Append {| Diagnostics := Diagnostics resp; State := Some data |} [].

Section Callbacks.

Context {Server : Type} (env : client.Env Server).

Local Open Scope io_scope.

Definition Read (r : api_key_resource.APIKeyResource) (req : ReadRequest)
    (resp : ReadResponse) : M Server ReadResponse :=
  let (diags, data) := State_Get req in
  let resp := Diagnostics_Append resp diags in
  if diag.HasError (Diagnostics resp) then ret resp
  else
    let accessToken := ValueString (api_key_resource.ID data) in
    got <- client.GetKeyByAccessToken env (api_key_resource.client r) accessToken ;;
    match got with
    | Err err =>
        ret (Diagnostics_AddError resp "Client Error"
               ("Unable to read API key: " +:+ err))
    | Ok None => ret (State_RemoveResource resp)
    | Ok (Some key) =>
        let data :=
          {| api_key_resource.ID := StringValue (client.AccessToken key);
             api_key_resource.AppName := StringValue (client.AppName key);
             api_key_resource.AccessToken := StringValue (client.AccessToken key);
             api_key_resource.DateCreated := StringValue (client.DateCreated key) |} in
        ret (State_Set resp data)
    end.

End Callbacks.

End api_key_resource_Read.

Module api_key_resource_Delete.
Import types.

Record DeleteRequest := mkDeleteRequest {
  State_Get : diag.Diagnostics * api_key_resource.APIKeyResourceModel
}.

Record DeleteResponse := mkDeleteResponse {
  Diagnostics : diag.Diagnostics;
  State : option api_key_resource.APIKeyResourceModel
}.

Definition Diagnostics_Append (resp : DeleteResponse) (new : diag.Diagnostics)
  : DeleteResponse :=
  {| Diagnostics := diag.Append (Diagnostics resp) new; State := State resp |}.

Definition Diagnostics_AddError (resp : DeleteResponse) (summary detail : string)
  : DeleteResponse :=
  {| Diagnostics := diag.AddError (Diagnostics resp) summary detail; State := State resp |}.

Section Callbacks.

Context {Server : Type} (env : client.Env Server).

Local Open Scope io_scope.

Definition Delete (r : api_key_resource.APIKeyResource) (req : DeleteRequest)
    (resp : DeleteResponse) : M Server DeleteResponse :=
  let (diags, data) := State_Get req in
  let resp := Diagnostics_Append resp diags in
  if diag.HasError (Diagnostics resp) then ret resp
  else
    let accessToken := ValueString (api_key_resource.AccessToken data) in
    err <- client.DeleteKey env (api_key_resource.client r) accessToken ;;
    match err with
    | Some err =>
        ret (Diagnostics_AddError resp "Client Error"
               ("Unable to delete API key: " +:+ err))
    | None => ret resp
    end.

End Callbacks.

End api_key_resource_Delete.

Module api_key_resource_Configure.

(** [resource.ConfigureRequest]. *)
Record ConfigureRequest := mkConfigureRequest {
  ProviderData : framework.any
}.

Record ConfigureResponse := mkConfigureResponse {
  Diagnostics : diag.Diagnostics
}.

(** [Configure], on the [client] field of the resource ([None] for a nil
    pointer): the field afterwards, and the response. *)
Definition Configure (r_client : option client.Client) (req : ConfigureRequest)
    (resp : ConfigureResponse) : option client.Client * ConfigureResponse :=
  match ProviderData req with
  | framework.AnyNil => (r_client, resp)
  | framework.AnyClient c => (c, resp)
  | framework.AnyOther typeName =>
      (r_client,
       {| Diagnostics :=
            diag.AddError (Diagnostics resp) "Unexpected Resource Configure Type"
              ("Expected *client.Client, got: " +:+ typeName
               +:+ ". Please report this issue to the provider developers.") |})
  end.

End api_key_resource_Configure.

Module api_key_data_source_Configure.

(** [datasource.ConfigureRequest]. *)
Record ConfigureRequest := mkConfigureRequest {
  ProviderData : framework.any
}.

Record ConfigureResponse := mkConfigureResponse {
  Diagnostics : diag.Diagnostics
}.

Definition Configure (d_client : option client.Client) (req : ConfigureRequest)
    (resp : ConfigureResponse) : option client.Client * ConfigureResponse :=
  match ProviderData req with
  | framework.AnyNil => (d_client, resp)
  | framework.AnyClient c => (c, resp)
  | framework.AnyOther typeName =>
      (d_client,
       {| Diagnostics :=
            diag.AddError (Diagnostics resp) "Unexpected Data Source Configure Type"
              ("Expected *client.Client, got: " +:+ typeName
               +:+ ". Please report this issue to the provider developers.") |})
  end.

End api_key_data_source_Configure.

(** ** The provider: [provider.go] *)

Module provider.
Import types.

Record JellyfinProviderModel := mkJellyfinProviderModel {
  Endpoint : String_;
  Username : String_;
  Password : String_
}.

(** [provider.ConfigureRequest]: [Config_Get] is what
    [req.Config.Get(ctx, &data)] yields. *)
Record ConfigureRequest := mkConfigureRequest {
  Config_Get : diag.Diagnostics * JellyfinProviderModel
}.

Record ConfigureResponse := mkConfigureResponse {
  Diagnostics : diag.Diagnostics;
  DataSourceData : framework.any;
  ResourceData : framework.any
}.

Definition Diagnostics_Append (resp : ConfigureResponse) (new : diag.Diagnostics)
  : ConfigureResponse :=
  {| Diagnostics := diag.Append (Diagnostics resp) new;
     DataSourceData := DataSourceData resp;
     ResourceData := ResourceData resp |}.

Definition Diagnostics_AddError (resp : ConfigureResponse) (summary detail : string)
  : ConfigureResponse :=
  {| Diagnostics := diag.AddError (Diagnostics resp) summary detail;
     DataSourceData := DataSourceData resp;
     ResourceData := ResourceData resp |}.

(** [v := field.ValueString(); if v == "" { v = os.Getenv(name) }]. *)
Definition from_config_or_env (Getenv : string -> string) (field : String_) (name : string)
  : string :=
  let v := ValueString field in
  if String.eqb v "" then Getenv name else v.

(** [if v == "" { resp.Diagnostics.AddError(summary, detail) }]. *)
Definition require (resp : ConfigureResponse) (v summary detail : string)
  : ConfigureResponse :=
  if String.eqb v "" then Diagnostics_AddError resp summary detail else resp.

Definition missing_endpoint_detail : string :=
  "The provider cannot create the Jellyfin API client as there is a missing or empty value for the Jellyfin endpoint. "
  +:+ "Set the endpoint value in the configuration or use the JELLYFIN_ENDPOINT environment variable. "
  +:+ "If either is already set, ensure the value is not empty.".

Definition missing_username_detail : string :=
  "The provider cannot create the Jellyfin API client as there is a missing or empty value for the Jellyfin username. "
  +:+ "Set the username value in the configuration or use the JELLYFIN_USERNAME environment variable. "
  +:+ "If either is already set, ensure the value is not empty.".

Definition missing_password_detail : string :=
  "The provider cannot create the Jellyfin API client as there is a missing or empty value for the Jellyfin password. "
  +:+ "Set the password value in the configuration or use the JELLYFIN_PASSWORD environment variable. "
  +:+ "If either is already set, ensure the value is not empty.".

Definition authentication_failed_detail (err : error) : string :=
  "The provider failed to authenticate with the Jellyfin server. "
  +:+ "Please verify your credentials and ensure the Jellyfin server is accessible. "
  +:+ "Error: " +:+ err.

Section Callbacks.

(** [Getenv] is [os.Getenv] in the process the provider runs in. *)
Context {Server : Type} (env : client.Env Server) (Getenv : string -> string).

Local Open Scope io_scope.

Definition Configure (req : ConfigureRequest) (resp : ConfigureResponse)
  : M Server ConfigureResponse :=
  let (diags, data) := Config_Get req in
  let resp := Diagnostics_Append resp diags in
  if diag.HasError (Diagnostics resp) then ret resp
  else
    let endpoint := from_config_or_env Getenv (Endpoint data) "JELLYFIN_ENDPOINT" in
    let username := from_config_or_env Getenv (Username data) "JELLYFIN_USERNAME" in
    let password := from_config_or_env Getenv (Password data) "JELLYFIN_PASSWORD" in
    let resp := require resp endpoint "Missing Jellyfin Endpoint" missing_endpoint_detail in
    let resp := require resp username "Missing Jellyfin Username" missing_username_detail in
    let resp := require resp password "Missing Jellyfin Password" missing_password_detail in
    if diag.HasError (Diagnostics resp) then ret resp
    else
      authenticated <- client.NewClientWithAuth env endpoint username password ;;
      match authenticated with
      | Err err =>
          ret (Diagnostics_AddError resp "Failed to Authenticate with Jellyfin"
                 (authentication_failed_detail err))
      | Ok jellyfinClient =>
          ret {| Diagnostics := Diagnostics resp;
                 DataSourceData := framework.AnyClient (Some jellyfinClient);
                 ResourceData := framework.AnyClient (Some jellyfinClient) |}
      end.

End Callbacks.

End provider.

(** ** Vocabulary of the statements *)

(** [found] is what a front-to-back scan of [items] for [P] yields: the
    first element satisfying [P], or nothing when none does. *)
Definition first_match {A : Type} (P : A -> Prop) (items : list A) (found : option A) : Prop :=
  match found with
  | Some x =>
      exists before after : list A,
        items = (before ++ x :: after)%list /\ P x /\ Forall (fun y => ~ P y) before
  | None => Forall (fun y => ~ P y) items
  end.

(** The request that [doRequest] hands to the transport for [method] and
    [path]. *)
Definition authorized_request (c : client.Client) (method : Method) (path : string) : Request :=
  Header_Set
    {| Method_ := method; URL := client.endpoint c +:+ path; Header := []; ReqBody := None |}
    "Authorization" (client.token_header (client.accessToken c)).

(** The request targets of the three endpoints. *)
Definition keys_path : string := "/Auth/Keys".
Definition create_path (appName : string) : string :=
  "/Auth/Keys?app=" +:+ url.QueryEscape appName.
Definition delete_path (accessToken : string) : string :=
  "/Auth/Keys/" +:+ url.PathEscape accessToken.

(** The requests a computation hands to the transport. *)
Definition issues {Server : Type} (w w' : World Server) (reqs : list Request) : Prop :=
  wire w' = (wire w ++ reqs)%list.

(** The requests of one call of [doRequest]: the authorized request when
    the URL is accepted, none otherwise. *)
Definition doRequest_requests {Server : Type} (env : client.Env Server)
    (c : client.Client) (method : Method) (path : string)
  : list Request :=
  match client.url_error env (client.endpoint c +:+ path) with
  | Some _ => []
  | None => [authorized_request c method path]
  end.

(** The public operations of a constructed client. *)
Inductive operation :=
| OpGetKeys
| OpGetKey (accessToken : string)
| OpCreateKey (appName : string)
| OpDeleteKey (accessToken : string)
| OpFindKeyByAppName (appName : string).

Definition operation_method (op : operation) : Method :=
  match op with
  | OpGetKeys | OpGetKey _ | OpFindKeyByAppName _ => MethodGet
  | OpCreateKey _ => MethodPost
  | OpDeleteKey _ => MethodDelete
  end.

Definition operation_path (op : operation) : string :=
  match op with
  | OpGetKeys | OpGetKey _ | OpFindKeyByAppName _ => keys_path
  | OpCreateKey appName => create_path appName
  | OpDeleteKey accessToken => delete_path accessToken
  end.

(** The world after running an operation. *)
Definition operation_world {Server : Type} (env : client.Env Server) (c : client.Client)
    (op : operation) (w : World Server) : World Server :=
  match op with
  | OpGetKeys => snd (client.GetKeys env c w)
  | OpGetKey accessToken => snd (client.GetKey env c accessToken w)
  | OpCreateKey appName => snd (client.CreateKey env c appName w)
  | OpDeleteKey accessToken => snd (client.DeleteKey env c accessToken w)
  | OpFindKeyByAppName appName => snd (client.FindKeyByAppName env c appName w)
  end.

(** An error message that tells the status code and the body of [resp]. *)
Definition reports (msg : error) (resp : Response) : Prop :=
  Contains msg (fmt_d (StatusCode resp)) /\ Contains msg (Body resp).

(** [v] is the value of an identification field: the override when the
    configuration is present and its field non-empty, [dflt] otherwise. *)
Definition picks (config : option client.ClientConfig)
    (field : client.ClientConfig -> string) (dflt v : string) : Prop :=
  match config with
  | None => v = dflt
  | Some cfg => (field cfg = "" -> v = dflt) /\ (field cfg <> "" -> v = field cfg)
  end.

(** The URL of the authentication request for a configured endpoint. *)
Definition authentication_url (endpoint : string) : string :=
  TrimSuffix endpoint "/" +:+ "/Users/AuthenticateByName".

(** The [Authorization] header of the authentication request under a
    configuration. *)
Definition identification (config : option client.ClientConfig) : string :=
  match config with
  | Some cfg =>
      client.identification_header
        (client.override client.DefaultClientName (client.ClientName cfg))
        (client.override client.DefaultDeviceName (client.DeviceName cfg))
        (client.override client.DefaultDeviceID (client.DeviceID cfg))
        (client.override client.DefaultClientVersion (client.ClientVersion cfg))
  | None =>
      client.identification_header client.DefaultClientName client.DefaultDeviceName
        client.DefaultDeviceID client.DefaultClientVersion
  end.

(** The request that [NewClientWithAuthAndConfig] hands to the transport. *)
Definition authentication_request {Server : Type} (env : client.Env Server)
    (endpoint username password : string) (config : option client.ClientConfig) : Request :=
  Header_Set
    (Header_Set
       {| Method_ := MethodPost;
          URL := authentication_url endpoint;
          Header := [];
          ReqBody := Some (client.json_Marshal env
                             {| client.Username := username; client.Pw := password |}) |}
       "Content-Type" "application/json")
    "Authorization" (identification config).

(** What [NewClientWithAuthAndConfig] makes of the response to the
    authentication request. *)
Definition authentication_result {Server : Type} (env : client.Env Server)
    (endpoint : string) (resp : Response) : result client.Client :=
  if negb (StatusCode resp =? StatusOK)%Z then
    Err ("authentication failed with status " +:+ fmt_d (StatusCode resp)
         +:+ ": " +:+ Body resp)
  else
    match client.json_Decode_auth env (Body resp) with
    | Err err => Err ("failed to decode auth response: " +:+ err)
    | Ok authResp =>
        if String.eqb (client.auth_AccessToken authResp) "" then
          Err "authentication succeeded but no access token returned"
        else
          Ok {| client.endpoint := TrimSuffix endpoint "/";
                client.accessToken := client.auth_AccessToken authResp |}
    end.

(** The 256 byte values. *)
Definition all_bytes : list ascii := List.map ascii_of_nat (List.seq 0 256).

(** The identifiers a snapshot was taken of. *)
Definition listed (items : list client.APIKey) (id : Z) : Prop :=
  exists key : client.APIKey, In key items /\ client.Id key = id.

(** The selection of the created key as the specification words it, for
    comparison with [api_key_resource.Create_scan]: the keys of the
    re-fetched list that are absent from the snapshot are the candidates,
    and the requested name only breaks ties between them. *)
Definition tie_break_selection (existingIDs : gmap Z bool) (items : list client.APIKey)
    (appName : string) : option client.APIKey :=
  let fresh :=
    List.filter (fun key => negb (api_key_resource.index existingIDs (client.Id key))) items in
  match find (fun key => String.eqb (client.AppName key) appName) fresh with
  | Some key => Some key
  | None => head fresh
  end.

(** A key of the re-fetched list is the created one, for [Create], when it
    was not listed before the creation and carries the requested name. *)
Definition fresh_and_named (existing : list client.APIKey) (appName : string)
    (key : client.APIKey) : Prop :=
  ~ listed existing (client.Id key) /\ client.AppName key = appName.

(** The three requests of a complete run of [Create]: list, create, list. *)
Definition Create_requests (c : client.Client) (appName : string) : list Request :=
  [ authorized_request c MethodGet keys_path;
    authorized_request c MethodPost (create_path appName);
    authorized_request c MethodGet keys_path ].

(** The ways in which [Create] fails on the way to the created key: the
    list before the creation fails, or the creation, or the list after it,
    or the list after it has no key that is both new and carries the
    requested name. *)
Definition Create_fails {Server : Type} (env : client.Env Server) (c : client.Client)
    (appName : string) (w : World Server) : Prop :=
  match client.GetKeys env c w with
  | (Err _, _) => True
  | (Ok existingKeys, w1) =>
      match client.CreateKey env c appName w1 with
      | (Some _, _) => True
      | (None, w2) =>
          match client.GetKeys env c w2 with
          | (Err _, _) => True
          | (Ok newKeys, _) =>
              Forall (fun key => ~ fresh_and_named (client.Items existingKeys) appName key)
                (client.Items newKeys)
          end
      end
  end.

(** What the data-source [Read] makes of the answer of its lookup: a
    client error, the not-found error, or the state written from the key. *)
Definition Read_outcome {Server : Type} (resp : api_key_data_source.ReadResponse)
    (got : result (option client.APIKey) * World Server)
  : api_key_data_source.ReadResponse * World Server :=
  match got with
  | (Err err, w') =>
      (api_key_data_source.Diagnostics_AddError resp "Client Error"
         ("Unable to read API key: " +:+ err), w')
  | (Ok None, w') =>
      (api_key_data_source.Diagnostics_AddError resp "API Key Not Found"
         "The specified API key was not found.", w')
  | (Ok (Some key), w') =>
      (api_key_data_source.State_Set resp
         {| api_key_data_source.ID := types.StringValue (client.AccessToken key);
            api_key_data_source.AppName := types.StringValue (client.AppName key);
            api_key_data_source.AccessToken := types.StringValue (client.AccessToken key);
            api_key_data_source.DateCreated := types.StringValue (client.DateCreated key) |},
       w')
  end.

(** The diagnostic of a read that names neither attribute. *)
Definition missing_attribute : diag.Diagnostic :=
  {| diag.severity := diag.SeverityError;
     diag.Summary := "Missing Required Attribute";
     diag.Detail :=
       "Either 'app_name' or 'access_token' must be provided to look up an API key." |}.

(** The error an operation returns, [None] when it returns none. *)
Definition operation_error {Server : Type} (env : client.Env Server) (c : client.Client)
    (op : operation) (w : World Server) : option error :=
  let to_error {A : Type} (r : result A) : option error :=
    match r with Err err => Some err | Ok _ => None end in
  match op with
  | OpGetKeys => to_error (fst (client.GetKeys env c w))
  | OpGetKey accessToken => to_error (fst (client.GetKey env c accessToken w))
  | OpCreateKey appName => fst (client.CreateKey env c appName w)
  | OpDeleteKey accessToken => fst (client.DeleteKey env c accessToken w)
  | OpFindKeyByAppName appName => to_error (fst (client.FindKeyByAppName env c appName w))
  end.

(** Every byte of [s] passes [check]. *)
Fixpoint string_forall (check : ascii -> bool) (s : string) : bool :=
  match s with
  | EmptyString => true
  | String c rest => check c && string_forall check rest
  end.

(** The unreserved characters of a URL: letters, digits and [-_.~]. *)
Definition unreserved (c : ascii) : bool :=
  url.between "a" "z" c || url.between "A" "Z" c || url.between "0" "9" c
  || url.one_of ["-"; "_"; "."; "~"]%char c.

(** The bytes an escaped query component may consist of. *)
Definition query_safe (c : ascii) : bool :=
  unreserved c || url.one_of ["+"; "%"]%char c.

(** The bytes an escaped path segment may consist of. *)
Definition segment_safe (c : ascii) : bool :=
  unreserved c || url.one_of ["$"; "&"; "+"; "="; ":"; "@"; "%"]%char c.

(** Method, URL and header of a request: all of it but the body. *)
Definition request_line (req : Request) : Method * string * list (string * string) :=
  (Method_ req, URL req, Header req).

(** The state a lookup that found [key] is written as, by the resource. *)
Definition resource_state_of (key : client.APIKey) : api_key_resource.APIKeyResourceModel :=
  {| api_key_resource.ID := types.StringValue (client.AccessToken key);
     api_key_resource.AppName := types.StringValue (client.AppName key);
     api_key_resource.AccessToken := types.StringValue (client.AccessToken key);
     api_key_resource.DateCreated := types.StringValue (client.DateCreated key) |}.

(** An error diagnostic. *)
Definition error_diagnostic (summary detail : string) : diag.Diagnostic :=
  {| diag.severity := diag.SeverityError; diag.Summary := summary; diag.Detail := detail |}.

(** ** A scripted server, for concrete runs *)

Module fake.

(** The server is the list of the results its transport will give, in
    order; once the script is exhausted the connection is refused. *)
Definition Script : Type := list (result Response).

Definition Do (req : Request) (s : Script) : result Response * Script :=
  match s with
  | r :: rest => (r, rest)
  | [] => (Err "connection refused", [])
  end.

(** A URL with a space in it is not accepted. *)
Definition url_error (u : string) : option error :=
  if url.has_byte u " " then Some "invalid character in host name" else None.

Definition token1 : client.APIKey :=
  {| client.Id := 1; client.AccessToken := "token-1";
     client.AppName := "App One"; client.DateCreated := "2024-01-01T00:00:00Z" |}.

Definition token2 : client.APIKey :=
  {| client.Id := 2; client.AccessToken := "token-2";
     client.AppName := "App Two"; client.DateCreated := "2024-01-02T00:00:00Z" |}.

Definition token3 : client.APIKey :=
  {| client.Id := 3; client.AccessToken := "token-3";
     client.AppName := "App Two"; client.DateCreated := "2024-01-03T00:00:00Z" |}.

Definition keys (items : list client.APIKey) : client.APIKeyQueryResult :=
  {| client.Items := items;
     client.TotalRecordCount := Z.of_nat (List.length items);
     client.StartIndex := 0 |}.

(** The codec knows a few bodies by name. *)
Definition lookup_body {A : Type} (table : list (string * A)) (body : string) : result A :=
  match find (fun entry => String.eqb (fst entry) body) table with
  | Some entry => Ok (snd entry)
  | None => Err "invalid character 'x' looking for beginning of value"
  end.

Definition json_Decode_keys : string -> result client.APIKeyQueryResult :=
  lookup_body
    [ ("keys: none", keys []);
      ("keys: 1", keys [token1]);
      ("keys: 1 2", keys [token1; token2]);
      ("keys: 1 2 3", keys [token1; token2; token3]) ].

Definition json_Decode_auth : string -> result client.AuthenticateResponse :=
  lookup_body
    [ ("auth: secret",
       {| client.auth_AccessToken := "secret"; client.ServerId := "server-123";
          client.User_Id := "user-456"; client.User_Name := "admin";
          client.SessionInfo_Id := "session-789" |});
      ("auth: empty",
       {| client.auth_AccessToken := ""; client.ServerId := "server-123";
          client.User_Id := "user-456"; client.User_Name := "admin";
          client.SessionInfo_Id := "session-789" |}) ].

Definition json_Marshal (r : client.AuthenticateRequest) : string :=
  "auth request of " +:+ client.Username r.

Definition env : client.Env Script :=
  {| client.url_error := url_error;
     client.Do := Do;
     client.json_Marshal := json_Marshal;
     client.json_Decode_auth := json_Decode_auth;
     client.json_Decode_keys := json_Decode_keys |}.

(** A fresh world in front of a script. *)
Definition world (s : Script) : World Script := {| server := s; wire := [] |}.

Definition respond (status : Z) (body : string) : result Response :=
  Ok {| StatusCode := status; Body := body |}.

Definition c : client.Client := client.NewClient "http://localhost:8096/" "test-key".

(** A resource and a data source configured with the client [c]. *)
Definition resource0 : api_key_resource.APIKeyResource :=
  {| api_key_resource.client := c |}.

Definition datasource0 : api_key_data_source.APIKeyDataSource :=
  {| api_key_data_source.client := c |}.

(** The plan of a resource named [appName]: the computed attributes are
    unknown. *)
Definition plan (appName : string) : api_key_resource.CreateRequest :=
  {| api_key_resource.Plan_Get :=
       ([], {| api_key_resource.ID := types.StringUnknown;
               api_key_resource.AppName := types.StringValue appName;
               api_key_resource.AccessToken := types.StringUnknown;
               api_key_resource.DateCreated := types.StringUnknown |}) |}.

Definition no_state : api_key_resource.CreateResponse :=
  {| api_key_resource.Diagnostics := []; api_key_resource.State := None |}.

(** The configuration of a data-source query. *)
Definition query (appName accessToken : types.String_) : api_key_data_source.ReadRequest :=
  {| api_key_data_source.Config_Get :=
       ([], {| api_key_data_source.ID := types.StringNull;
               api_key_data_source.AppName := appName;
               api_key_data_source.AccessToken := accessToken;
               api_key_data_source.DateCreated := types.StringNull |}) |}.

Definition no_data : api_key_data_source.ReadResponse :=
  {| api_key_data_source.Diagnostics := []; api_key_data_source.State := None |}.

(** A creation during which the key [token2], named [App Two], appears. *)
Definition creation : Script :=
  [respond 200 "keys: 1"; respond 204 ""; respond 200 "keys: 1 2"].

(** The environment variables of a process that has all three set. *)
Definition Getenv (name : string) : string :=
  if String.eqb name "JELLYFIN_ENDPOINT" then "http://localhost:8096/"
  else if String.eqb name "JELLYFIN_USERNAME" then "admin"
  else if String.eqb name "JELLYFIN_PASSWORD" then "pw"
  else "".

(** The environment variables of a process that has none set. *)
Definition Getenv_unset (name : string) : string := "".

(** A provider configuration. *)
Definition provider_config (endpoint username password : types.String_)
  : provider.ConfigureRequest :=
  {| provider.Config_Get :=
       ([], {| provider.Endpoint := endpoint;
               provider.Username := username;
               provider.Password := password |}) |}.

Definition unconfigured : provider.ConfigureResponse :=
  {| provider.Diagnostics := [];
     provider.DataSourceData := framework.AnyNil;
     provider.ResourceData := framework.AnyNil |}.

(** The state of the resource created from [token2]. *)
Definition state2 : api_key_resource.APIKeyResourceModel :=
  {| api_key_resource.ID := types.StringValue "token-2";
     api_key_resource.AppName := types.StringValue "App Two";
     api_key_resource.AccessToken := types.StringValue "token-2";
     api_key_resource.DateCreated := types.StringValue "2024-01-02T00:00:00Z" |}.

Definition refresh (state : api_key_resource.APIKeyResourceModel)
  : api_key_resource_Read.ReadRequest :=
  {| api_key_resource_Read.State_Get := ([], state) |}.

Definition prior_state (state : api_key_resource.APIKeyResourceModel)
  : api_key_resource_Read.ReadResponse :=
  {| api_key_resource_Read.Diagnostics := [];
     api_key_resource_Read.State := Some state |}.

Definition destroy (state : api_key_resource.APIKeyResourceModel)
  : api_key_resource_Delete.DeleteRequest :=
  {| api_key_resource_Delete.State_Get := ([], state) |}.

Definition destroying (state : api_key_resource.APIKeyResourceModel)
  : api_key_resource_Delete.DeleteResponse :=
  {| api_key_resource_Delete.Diagnostics := [];
     api_key_resource_Delete.State := Some state |}.

End fake.

(** * Properties *)

(** ** Strings *)

Lemma append_cons (x : ascii) (a b : string) : String x a +:+ b = String x (a +:+ b).
Proof. reflexivity. Qed.

Lemma append_assoc (a b c : string) : (a +:+ b) +:+ c = a +:+ (b +:+ c).
Proof.
  induction a as [|x a IH]; [reflexivity|].
  rewrite !append_cons. now rewrite IH.
Qed.

Lemma append_nil_r (a : string) : a +:+ "" = a.
Proof.
  induction a as [|x a IH]; [reflexivity|].
  rewrite append_cons. now rewrite IH.
Qed.

Lemma Contains_middle (pre sub post : string) : Contains (pre +:+ sub +:+ post) sub.
Proof. now exists pre, post. Qed.

Lemma Contains_end (pre sub : string) : Contains (pre +:+ sub) sub.
Proof. exists pre, ""; now rewrite append_nil_r. Qed.








(** ** The scans *)

Lemma GetKey_scan_first_match (items : list client.APIKey) (token : string) :
  first_match (fun key => client.AccessToken key = token) items
    (client.GetKey_scan items token).
Proof.
  induction items as [|key rest IH]; simpl.
  - constructor.
  - destruct (String.eqb_spec (client.AccessToken key) token) as [Heq|Hne].
    + exists [], rest. repeat split; [assumption | constructor].
    + destruct (client.GetKey_scan rest token) as [hit|]; simpl in *.
      * destruct IH as (before & after & -> & Hhit & Hbefore).
        exists (key :: before), after. repeat split; [assumption | now constructor].
      * now constructor.
Qed.

Lemma FindKeyByAppName_scan_first_match (items : list client.APIKey) (appName : string) :
  first_match (fun key => client.AppName key = appName) items
    (client.FindKeyByAppName_scan items appName).
Proof.
  induction items as [|key rest IH]; simpl.
  - constructor.
  - destruct (String.eqb_spec (client.AppName key) appName) as [Heq|Hne].
    + exists [], rest. repeat split; [assumption | constructor].
    + destruct (client.FindKeyByAppName_scan rest appName) as [hit|]; simpl in *.
      * destruct IH as (before & after & -> & Hhit & Hbefore).
        exists (key :: before), after. repeat split; [assumption | now constructor].
      * now constructor.
Qed.

(** A scan result is determined by the list: two answers that are both
    first matches are the same answer. *)
Lemma first_match_unique {A : Type} (P : A -> Prop) (items : list A) (x y : option A) :
  first_match P items x -> first_match P items y -> x = y.
Proof.
  revert x y. induction items as [|a items IH]; intros x y Hx Hy.
  - destruct x as [x|], y as [y|]; simpl in *; try reflexivity;
      repeat match goal with
             | H : exists _, _ |- _ => destruct H
             | H : _ /\ _ |- _ => destruct H
             | H : [] = (?l ++ _ :: _)%list |- _ => destruct l; discriminate H
             end.
  - assert (Hhead : forall z : option A, first_match P (a :: items) z ->
              (P a /\ z = Some a) \/ (~ P a /\ first_match P items z)).
    { intros [z|] Hz; simpl in Hz.
      - destruct Hz as (before & after & Heq & Hz & Hbefore).
        destruct before as [|b before]; simpl in Heq; injection Heq as <- ->.
        + now left.
        + right. inversion Hbefore; subst. split; [assumption|].
          now exists before, after.
      - right. inversion Hz; subst. now split. }
    destruct (Hhead x Hx) as [[Pa ->]|[nPa Hx']], (Hhead y Hy) as [[Pa' ->]|[nPa' Hy']];
      try reflexivity; try contradiction.
    now apply IH.
Qed.

(** ** The client *)

Section ClientFacts.

Context {Server : Type} (env : client.Env Server).

(** What one call of [doRequest] does, case by case. *)
Lemma doRequest_run (c : client.Client) (method : Method) (path : string) (w : World Server) :
  client.doRequest env c method path w =
  match client.url_error env (client.endpoint c +:+ path) with
  | Some err => (Err ("failed to create request: " +:+ err), w)
  | None =>
      let req := authorized_request c method path in
      match client.Do env req (server w) with
      | (Ok resp, s) => (Ok resp, {| server := s; wire := wire w ++ [req] |})
      | (Err err, s) =>
          (Err ("failed to execute request: " +:+ err),
           {| server := s; wire := wire w ++ [req] |})
      end
  end.
Proof.
  unfold client.doRequest, client.NewRequestWithContext.
  destruct (client.url_error env (client.endpoint c +:+ path)) as [err|]; [reflexivity|].
  unfold bind, client.httpDo, authorized_request; simpl.
  destruct (client.Do env _ (server w)) as [[resp|err] s]; reflexivity.
Qed.

Lemma doRequest_issues (c : client.Client) (method : Method) (path : string) (w : World Server) :
  issues w (snd (client.doRequest env c method path w)) (doRequest_requests env c method path).
Proof.
  rewrite doRequest_run. unfold issues, doRequest_requests.
  destruct (client.url_error env _) as [err|]; simpl.
  - now rewrite app_nil_r.
  - destruct (client.Do env _ (server w)) as [[resp|err] s]; reflexivity.
Qed.

(** The operations do nothing to the world but their one [doRequest]. *)
Lemma GetKeys_world (c : client.Client) (w : World Server) :
  snd (client.GetKeys env c w) = snd (client.doRequest env c MethodGet keys_path w).
Proof.
  unfold client.GetKeys, bind, keys_path.
  destruct (client.doRequest env c MethodGet "/Auth/Keys" w) as [[resp|err] w']; simpl;
    [|reflexivity].
  destruct (negb _); [reflexivity|].
  destruct (client.json_Decode_keys env (Body resp)); reflexivity.
Qed.

Lemma GetKey_run (c : client.Client) (token : string) (w : World Server) :
  client.GetKey env c token w =
  match client.GetKeys env c w with
  | (Ok result, w') => (Ok (client.GetKey_scan (client.Items result) token), w')
  | (Err err, w') => (Err err, w')
  end.
Proof.
  unfold client.GetKey, bind.
  destruct (client.GetKeys env c w) as [[result|err] w']; reflexivity.
Qed.

Lemma FindKeyByAppName_run (c : client.Client) (appName : string) (w : World Server) :
  client.FindKeyByAppName env c appName w =
  match client.GetKeys env c w with
  | (Ok result, w') => (Ok (client.FindKeyByAppName_scan (client.Items result) appName), w')
  | (Err err, w') => (Err err, w')
  end.
Proof.
  unfold client.FindKeyByAppName, bind.
  destruct (client.GetKeys env c w) as [[result|err] w']; reflexivity.
Qed.

(** C2.  Whatever [GetKeys] answers in the world at hand: when it fails,
    [GetKey] and [FindKeyByAppName] fail with the very same error; when it
    returns a list, each of them returns, without error, the first item of
    that list (in list order) whose access token, resp. app name, is the one
    sought, and no value when no item matches. *)
Theorem lookup_returns_first_match
    (c : client.Client) (token appName : string) (w : World Server) :
  match client.GetKeys env c w with
  | (Err err, w') =>
      client.GetKey env c token w = (Err err, w')
      /\ client.FindKeyByAppName env c appName w = (Err err, w')
  | (Ok result, w') =>
      exists byToken byName : option client.APIKey,
        client.GetKey env c token w = (Ok byToken, w')
        /\ first_match (fun key => client.AccessToken key = token)
             (client.Items result) byToken
        /\ client.FindKeyByAppName env c appName w = (Ok byName, w')
        /\ first_match (fun key => client.AppName key = appName)
             (client.Items result) byName
  end.
Proof.
  rewrite GetKey_run, FindKeyByAppName_run.
  destruct (client.GetKeys env c w) as [[result|err] w'].
  - eexists _, _. repeat split.
    + apply GetKey_scan_first_match.
    + apply FindKeyByAppName_scan_first_match.
  - now split.
Qed.


(** What [NewClientWithAuthAndConfig] does, case by case. *)
Lemma NewClientWithAuthAndConfig_run (endpoint username password : string)
    (config : option client.ClientConfig) (w : World Server) :
  client.NewClientWithAuthAndConfig env endpoint username password config w =
  match client.url_error env (authentication_url endpoint) with
  | Some err => (Err ("failed to create auth request: " +:+ err), w)
  | None =>
      let req := authentication_request env endpoint username password config in
      match client.Do env req (server w) with
      | (Err err, s) =>
          (Err ("failed to authenticate: " +:+ err),
           {| server := s; wire := wire w ++ [req] |})
      | (Ok resp, s) =>
          (authentication_result env endpoint resp,
           {| server := s; wire := wire w ++ [req] |})
      end
  end.
Proof.
  unfold client.NewClientWithAuthAndConfig, client.NewRequestWithContext,
    authentication_url, authentication_request, identification.
  destruct config as [cfg|]; cbv zeta iota beta;
    (destruct (client.url_error env _) as [err|]; [reflexivity|]);
    unfold bind, client.httpDo, authentication_url;
    (destruct (client.Do env _ (server w)) as [[resp|err] s]; [|reflexivity]);
    unfold ret, authentication_result;
    (destruct (negb _); [reflexivity|]);
    (destruct (client.json_Decode_auth env (Body resp)) as [a|err]; [|reflexivity]);
    destruct (String.eqb _ ""); reflexivity.
Qed.

Lemma CreateKey_run (c : client.Client) (appName : string) (w : World Server) :
  client.CreateKey env c appName w =
  match client.doRequest env c MethodPost (create_path appName) w with
  | (Err err, w') => (Some err, w')
  | (Ok resp, w') =>
      (if negb (StatusCode resp =? StatusNoContent)%Z && negb (StatusCode resp =? StatusOK)%Z
       then Some (client.api_failure resp) else None, w')
  end.
Proof.
  unfold client.CreateKey, bind, create_path.
  destruct (client.doRequest env c MethodPost _ w) as [[resp|err] w']; [|reflexivity].
  destruct (negb _ && negb _); reflexivity.
Qed.

Lemma DeleteKey_run (c : client.Client) (accessToken : string) (w : World Server) :
  client.DeleteKey env c accessToken w =
  match client.doRequest env c MethodDelete (delete_path accessToken) w with
  | (Err err, w') => (Some err, w')
  | (Ok resp, w') =>
      (if negb (StatusCode resp =? StatusNoContent)%Z && negb (StatusCode resp =? StatusOK)%Z
       then Some (client.api_failure resp) else None, w')
  end.
Proof.
  unfold client.DeleteKey, bind, delete_path.
  destruct (client.doRequest env c MethodDelete _ w) as [[resp|err] w']; [|reflexivity].
  destruct (negb _ && negb _); reflexivity.
Qed.

Lemma GetKeys_run (c : client.Client) (w : World Server) :
  client.GetKeys env c w =
  match client.doRequest env c MethodGet keys_path w with
  | (Err err, w') => (Err err, w')
  | (Ok resp, w') =>
      (if negb (StatusCode resp =? StatusOK)%Z then Err (client.api_failure resp)
       else match client.json_Decode_keys env (Body resp) with
            | Err err => Err ("failed to decode response: " +:+ err)
            | Ok result => Ok result
            end, w')
  end.
Proof.
  unfold client.GetKeys, bind, keys_path.
  destruct (client.doRequest env c MethodGet _ w) as [[resp|err] w']; [|reflexivity].
  destruct (negb _); [reflexivity|].
  destruct (client.json_Decode_keys env (Body resp)); reflexivity.
Qed.

(** Every operation hands to the transport the requests of its one [doRequest],
    and nothing else. *)
Lemma operation_issues (c : client.Client) (op : operation) (w : World Server) :
  issues w (operation_world env c op w)
    (doRequest_requests env c (operation_method op) (operation_path op)).
Proof.
  assert (Hkeys : issues w (snd (client.GetKeys env c w))
                    (doRequest_requests env c MethodGet keys_path)).
  { rewrite GetKeys_world. apply doRequest_issues. }
  destruct op as [|token|appName|token|appName]; simpl.
  - exact Hkeys.
  - rewrite GetKey_run.
    destruct (client.GetKeys env c w) as [[result|err] w']; exact Hkeys.
  - rewrite CreateKey_run.
    pose proof (doRequest_issues c MethodPost (create_path appName) w) as H.
    destruct (client.doRequest env c MethodPost _ w) as [[resp|err] w']; exact H.
  - rewrite DeleteKey_run.
    pose proof (doRequest_issues c MethodDelete (delete_path token) w) as H.
    destruct (client.doRequest env c MethodDelete _ w) as [[resp|err] w']; exact H.
  - rewrite FindKeyByAppName_run.
    destruct (client.GetKeys env c w) as [[result|err] w']; exact Hkeys.
Qed.

Lemma api_failure_reports (resp : Response) : reports (client.api_failure resp) resp.
Proof.
  unfold reports, client.api_failure. split.
  - apply Contains_middle.
  - rewrite <- !append_assoc. apply Contains_end.
Qed.

Lemma status_check (status : Z) :
  negb (status =? StatusNoContent)%Z && negb (status =? StatusOK)%Z = false
  <-> status = 200 \/ status = 204.
Proof.
  unfold StatusNoContent, StatusOK.
  destruct (Z.eqb_spec status 204), (Z.eqb_spec status 200); simpl; split; intros H;
    try reflexivity; try discriminate; try lia; auto.
Qed.

(** C6.  For every response the transport hands to the operation:
    [CreateKey] and [DeleteKey] return no error exactly when its status is
    200 or 204, and for every other status return an error whose message
    contains the status code and the body text; [GetKeys] returns such an
    error for every status other than 200. *)
Theorem status_decides_outcome (c : client.Client) (w : World Server) :
  (forall (appName : string) (resp : Response),
      fst (client.doRequest env c MethodPost (create_path appName) w) = Ok resp ->
      (fst (client.CreateKey env c appName w) = None
       <-> StatusCode resp = 200 \/ StatusCode resp = 204)
      /\ (~ (StatusCode resp = 200 \/ StatusCode resp = 204) ->
          exists msg, fst (client.CreateKey env c appName w) = Some msg
                      /\ reports msg resp))
  /\ (forall (accessToken : string) (resp : Response),
      fst (client.doRequest env c MethodDelete (delete_path accessToken) w) = Ok resp ->
      (fst (client.DeleteKey env c accessToken w) = None
       <-> StatusCode resp = 200 \/ StatusCode resp = 204)
      /\ (~ (StatusCode resp = 200 \/ StatusCode resp = 204) ->
          exists msg, fst (client.DeleteKey env c accessToken w) = Some msg
                      /\ reports msg resp))
  /\ (forall resp : Response,
      fst (client.doRequest env c MethodGet keys_path w) = Ok resp ->
      StatusCode resp <> 200 ->
      exists msg, fst (client.GetKeys env c w) = Err msg /\ reports msg resp).
Proof.
  repeat split.
  - rewrite CreateKey_run.
    destruct (client.doRequest env c MethodPost _ w) as [[resp'|err] w']; simpl in *;
      [|discriminate].
    injection H as ->. intros Hnone.
    destruct (negb _ && negb _) eqn:E; [discriminate|]. now apply status_check.
  - rewrite CreateKey_run.
    destruct (client.doRequest env c MethodPost _ w) as [[resp'|err] w']; simpl in *;
      [|discriminate].
    injection H as ->. intros Hst. apply status_check in Hst. now rewrite Hst.
  - rewrite CreateKey_run.
    destruct (client.doRequest env c MethodPost _ w) as [[resp'|err] w']; simpl in *;
      [|discriminate].
    injection H as ->. intros Hst.
    destruct (negb _ && negb _) eqn:E.
    + eexists. split; [reflexivity|]. apply api_failure_reports.
    + apply status_check in E. contradiction.
  - rewrite DeleteKey_run.
    destruct (client.doRequest env c MethodDelete _ w) as [[resp'|err] w']; simpl in *;
      [|discriminate].
    injection H as ->. intros Hnone.
    destruct (negb _ && negb _) eqn:E; [discriminate|]. now apply status_check.
  - rewrite DeleteKey_run.
    destruct (client.doRequest env c MethodDelete _ w) as [[resp'|err] w']; simpl in *;
      [|discriminate].
    injection H as ->. intros Hst. apply status_check in Hst. now rewrite Hst.
  - rewrite DeleteKey_run.
    destruct (client.doRequest env c MethodDelete _ w) as [[resp'|err] w']; simpl in *;
      [|discriminate].
    injection H as ->. intros Hst.
    destruct (negb _ && negb _) eqn:E.
    + eexists. split; [reflexivity|]. apply api_failure_reports.
    + apply status_check in E. contradiction.
  - intros resp H Hst. rewrite GetKeys_run.
    destruct (client.doRequest env c MethodGet _ w) as [[resp'|err] w']; simpl in *;
      [|discriminate].
    injection H as ->.
    destruct (Z.eqb_spec (StatusCode resp) StatusOK) as [E|E]; [contradiction|].
    eexists. split; [reflexivity|]. apply api_failure_reports.
Qed.


Lemma authentication_issues (endpoint username password : string)
    (config : option client.ClientConfig) (w : World Server) :
  exists reqs : list Request,
    issues w (snd (client.NewClientWithAuthAndConfig env endpoint username password config w))
      reqs
    /\ Forall (fun req => req = authentication_request env endpoint username password config)
         reqs
    /\ (List.length reqs <= 1)%nat
    /\ (client.url_error env (authentication_url endpoint) = None ->
        List.length reqs = 1%nat).
Proof.
  rewrite NewClientWithAuthAndConfig_run. unfold issues.
  destruct (client.url_error env _) as [err|]; cbv zeta.
  - exists []. simpl. rewrite app_nil_r.
    split; [reflexivity|]. split; [constructor|]. split; [lia|discriminate].
  - exists [authentication_request env endpoint username password config].
    destruct (client.Do env _ (server w)) as [[resp|err] s]; simpl;
      (split; [reflexivity|]); (split; [now repeat constructor|]); split; auto.
Qed.


Lemma override_picks (cfg : client.ClientConfig) (field : client.ClientConfig -> string)
    (dflt : string) :
  picks (Some cfg) field dflt (client.override dflt (field cfg)).
Proof.
  unfold picks, client.override.
  destruct (String.eqb_spec (field cfg) ""); simpl; split; intros; congruence.
Qed.

(** C5.  Whatever the configuration, absent or present: the
    [Authorization] header of the authentication request is
    [MediaBrowser Client="..", Device="..", DeviceId="..", Version=".."]
    where each of the four values is, independently of the other three, the
    default ([Terraform], [Terraform Provider],
    [terraform-provider-jellyfin], [1.0.0]) when the configuration is absent
    or its field is empty, and the field of the configuration otherwise. *)
Theorem identification_defaults (endpoint username password : string)
    (config : option client.ClientConfig) (w : World Server) :
  exists clientName deviceName deviceID clientVersion : string,
    picks config client.ClientName "Terraform" clientName
    /\ picks config client.DeviceName "Terraform Provider" deviceName
    /\ picks config client.DeviceID "terraform-provider-jellyfin" deviceID
    /\ picks config client.ClientVersion "1.0.0" clientVersion
    /\ exists reqs : list Request,
         issues w
           (snd (client.NewClientWithAuthAndConfig env endpoint username password config w))
           reqs
         /\ Forall
              (fun req =>
                 Header_Get req "Authorization"
                 = Some ("MediaBrowser Client=" +:+ dquote +:+ clientName +:+ dquote
                         +:+ ", Device=" +:+ dquote +:+ deviceName +:+ dquote
                         +:+ ", DeviceId=" +:+ dquote +:+ deviceID +:+ dquote
                         +:+ ", Version=" +:+ dquote +:+ clientVersion +:+ dquote))
              reqs
         /\ (client.url_error env (authentication_url endpoint) = None ->
             List.length reqs = 1%nat).
Proof.
  destruct (authentication_issues endpoint username password config w)
    as (reqs & Hissues & Hreqs & _ & Hone).
  destruct config as [cfg|].
  - exists (client.override client.DefaultClientName (client.ClientName cfg)),
      (client.override client.DefaultDeviceName (client.DeviceName cfg)),
      (client.override client.DefaultDeviceID (client.DeviceID cfg)),
      (client.override client.DefaultClientVersion (client.ClientVersion cfg)).
    repeat (split; [apply override_picks|]).
    exists reqs. repeat split; try assumption.
    eapply Forall_impl; [exact Hreqs|]. intros req ->. reflexivity.
  - exists client.DefaultClientName, client.DefaultDeviceName,
      client.DefaultDeviceID, client.DefaultClientVersion.
    repeat (split; [reflexivity|]).
    exists reqs. repeat split; try assumption.
    eapply Forall_impl; [exact Hreqs|]. intros req ->. reflexivity.
Qed.



End ClientFacts.

(** ** Percent-encoding *)

Lemma all_bytes_complete (c : ascii) : In c all_bytes.
Proof.
  unfold all_bytes. rewrite <- (ascii_nat_embedding c).
  apply List.in_map, List.in_seq. pose proof (nat_ascii_bounded c). lia.
Qed.

(** A boolean check that passes on the 256 byte values holds of every
    byte. *)
Lemma for_all_bytes (check : ascii -> bool) :
  forallb check all_bytes = true -> forall c, check c = true.
Proof.
  intros H c. rewrite forallb_forall in H. apply H, all_bytes_complete.
Qed.

(** The two hexadecimal digits written for a byte are hexadecimal digits,
    and read back as that byte. *)
Lemma hex_digits_round_trip (c : ascii) :
  url.ishex (url.upperhex (Nat.shiftr (nat_of_ascii c) 4)) = true
  /\ url.ishex (url.upperhex (Nat.land (nat_of_ascii c) 15)) = true
  /\ ascii_of_nat
       (Nat.lor (Nat.shiftl (url.unhex (url.upperhex (Nat.shiftr (nat_of_ascii c) 4))) 4)
                (url.unhex (url.upperhex (Nat.land (nat_of_ascii c) 15))))
     = c.
Proof.
  pose proof (for_all_bytes
    (fun c =>
       url.ishex (url.upperhex (Nat.shiftr (nat_of_ascii c) 4))
       && url.ishex (url.upperhex (Nat.land (nat_of_ascii c) 15))
       && Ascii.eqb
            (ascii_of_nat
               (Nat.lor
                  (Nat.shiftl (url.unhex (url.upperhex (Nat.shiftr (nat_of_ascii c) 4))) 4)
                  (url.unhex (url.upperhex (Nat.land (nat_of_ascii c) 15)))))
            c)
    ltac:(vm_compute; reflexivity) c) as H.
  cbv beta in H. apply andb_true_iff in H as [H H3]. apply andb_true_iff in H as [H1 H2].
  apply Ascii.eqb_eq in H3. auto.
Qed.

(** A byte that is written as it is, is not [%], and is [+] only in a
    path segment. *)
Lemma literal_byte (c : ascii) (mode : url.encoding) :
  url.shouldEscape c mode = false ->
  Ascii.eqb c "%" = false /\ Ascii.eqb c "+" && url.is_query mode = false.
Proof.
  pose proof (for_all_bytes
    (fun c =>
       forallb (fun mode => url.shouldEscape c mode
                            || (negb (Ascii.eqb c "%")
                                && negb (Ascii.eqb c "+" && url.is_query mode)))
         [url.encodePathSegment; url.encodeQueryComponent])
    ltac:(vm_compute; reflexivity) c) as H.
  cbv beta in H. rewrite forallb_forall in H.
  intros Hesc. specialize (H mode). rewrite Hesc in H. simpl in H.
  assert (Hin : In mode [url.encodePathSegment; url.encodeQueryComponent])
    by (destruct mode; simpl; auto).
  apply H in Hin. apply andb_true_iff in Hin as [H1 H2].
  now rewrite negb_true_iff in H1, H2.
Qed.

Lemma escape_cons (c : ascii) (rest : string) (mode : url.encoding) :
  url.escape (String c rest) mode =
  if Ascii.eqb c " " && url.is_query mode then String "+" (url.escape rest mode)
  else if url.shouldEscape c mode then
    String "%"
      (String (url.upperhex (Nat.shiftr (nat_of_ascii c) 4))
         (String (url.upperhex (Nat.land (nat_of_ascii c) 15)) (url.escape rest mode)))
  else String c (url.escape rest mode).
Proof. reflexivity. Qed.

Lemma unescape_percent (h1 h2 : ascii) (t : string) (mode : url.encoding) :
  url.unescape (String "%" (String h1 (String h2 t))) mode =
  if url.ishex h1 && url.ishex h2 then
    option_map
      (String (ascii_of_nat (Nat.lor (Nat.shiftl (url.unhex h1) 4) (url.unhex h2))))
      (url.unescape t mode)
  else None.
Proof. reflexivity. Qed.

Lemma unescape_plus (t : string) (mode : url.encoding) :
  url.unescape (String "+" t) mode =
  option_map (String (if url.is_query mode then " " else "+")%char) (url.unescape t mode).
Proof. reflexivity. Qed.

Lemma unescape_literal (c : ascii) (t : string) (mode : url.encoding) :
  Ascii.eqb c "%" = false -> Ascii.eqb c "+" = false ->
  url.unescape (String c t) mode = option_map (String c) (url.unescape t mode).
Proof.
  intros H1 H2.
  change (url.unescape (String c t) mode) with
    (if Ascii.eqb c "%" then
       match t with
       | String h1 (String h2 rest') =>
           if url.ishex h1 && url.ishex h2 then
             option_map
               (String (ascii_of_nat (Nat.lor (Nat.shiftl (url.unhex h1) 4) (url.unhex h2))))
               (url.unescape rest' mode)
           else None
       | _ => None
       end
     else if Ascii.eqb c "+" then
       option_map (String (if url.is_query mode then " " else "+")%char)
         (url.unescape t mode)
     else option_map (String c) (url.unescape t mode)).
  now rewrite H1, H2.
Qed.

(** One escaped byte decodes to that byte. *)
Lemma unescape_escape_cons (c : ascii) (rest : string) (mode : url.encoding) :
  url.unescape (url.escape (String c rest) mode) mode
  = option_map (String c) (url.unescape (url.escape rest mode) mode).
Proof.
  rewrite escape_cons.
  destruct (Ascii.eqb c " " && url.is_query mode) eqn:Eplus.
  - apply andb_true_iff in Eplus as [Hc Hmode]. apply Ascii.eqb_eq in Hc. subst c.
    rewrite unescape_plus, Hmode. reflexivity.
  - destruct (url.shouldEscape c mode) eqn:Eesc.
    + destruct (hex_digits_round_trip c) as (H1 & H2 & H3).
      rewrite unescape_percent, H1, H2, H3. reflexivity.
    + destruct (literal_byte c mode Eesc) as [H1 H2].
      destruct (Ascii.eqb_spec c "+") as [->|Hplus].
      * rewrite unescape_plus. simpl in H2. now rewrite H2.
      * apply unescape_literal; [exact H1|]. now apply Ascii.eqb_neq.
Qed.

Lemma unescape_escape (s : string) (mode : url.encoding) :
  url.unescape (url.escape s mode) mode = Some s.
Proof.
  induction s as [|c rest IH]; [reflexivity|].
  rewrite unescape_escape_cons, IH. reflexivity.
Qed.

(** The hexadecimal digits, [%] and [+] are not delimiters. *)
Lemma hex_digits_no_delimiter (c sep : ascii) :
  In sep ["&"; ";"; "="; "?"; "#"; "/"; ","]%char ->
  Ascii.eqb (url.upperhex (Nat.shiftr (nat_of_ascii c) 4)) sep = false
  /\ Ascii.eqb (url.upperhex (Nat.land (nat_of_ascii c) 15)) sep = false
  /\ Ascii.eqb "%" sep = false
  /\ Ascii.eqb "+" sep = false.
Proof.
  intros Hsep.
  pose proof (for_all_bytes
    (fun c =>
       forallb (fun sep =>
                  negb (Ascii.eqb (url.upperhex (Nat.shiftr (nat_of_ascii c) 4)) sep)
                  && negb (Ascii.eqb (url.upperhex (Nat.land (nat_of_ascii c) 15)) sep)
                  && negb (Ascii.eqb "%" sep) && negb (Ascii.eqb "+" sep))
         ["&"; ";"; "="; "?"; "#"; "/"; ","]%char)
    ltac:(vm_compute; reflexivity) c) as H.
  cbv beta in H. rewrite forallb_forall in H. apply H in Hsep.
  repeat (apply andb_true_iff in Hsep as [Hsep ?]).
  rewrite negb_true_iff in *. auto.
Qed.

(** A byte that a query component keeps as it is, is no delimiter. *)
Lemma query_literal_no_delimiter (c sep : ascii) :
  In sep ["&"; ";"; "="; "?"; "#"; "/"]%char ->
  url.shouldEscape c url.encodeQueryComponent = false -> Ascii.eqb c sep = false.
Proof.
  intros Hsep Hesc.
  pose proof (for_all_bytes
    (fun c =>
       forallb (fun sep => url.shouldEscape c url.encodeQueryComponent
                           || negb (Ascii.eqb c sep))
         ["&"; ";"; "="; "?"; "#"; "/"]%char)
    ltac:(vm_compute; reflexivity) c) as H.
  cbv beta in H. rewrite forallb_forall in H. apply H in Hsep.
  rewrite Hesc in Hsep. simpl in Hsep. now rewrite negb_true_iff in Hsep.
Qed.

(** A byte that a path segment keeps as it is, is no delimiter. *)
Lemma segment_literal_no_delimiter (c sep : ascii) :
  In sep ["/"; "?"; "#"; ";"; ","]%char ->
  url.shouldEscape c url.encodePathSegment = false -> Ascii.eqb c sep = false.
Proof.
  intros Hsep Hesc.
  pose proof (for_all_bytes
    (fun c =>
       forallb (fun sep => url.shouldEscape c url.encodePathSegment
                           || negb (Ascii.eqb c sep))
         ["/"; "?"; "#"; ";"; ","]%char)
    ltac:(vm_compute; reflexivity) c) as H.
  cbv beta in H. rewrite forallb_forall in H. apply H in Hsep.
  rewrite Hesc in Hsep. simpl in Hsep. now rewrite negb_true_iff in Hsep.
Qed.

(** The bytes that delimit query parameters do not occur in an escaped
    query component, and the slash does not occur in an escaped path
    segment. *)
Lemma QueryEscape_has_byte (s : string) (sep : ascii) :
  In sep ["&"; ";"; "="; "?"; "#"; "/"]%char -> url.has_byte (url.QueryEscape s) sep = false.
Proof.
  intros Hsep. unfold url.QueryEscape.
  assert (Hsep' : In sep ["&"; ";"; "="; "?"; "#"; "/"; ","]%char)
    by (simpl in *; tauto).
  induction s as [|c rest IH]; [reflexivity|].
  destruct (hex_digits_no_delimiter c sep Hsep') as (H1 & H2 & H3 & H4).
  rewrite escape_cons.
  destruct (Ascii.eqb c " " && url.is_query url.encodeQueryComponent).
  - cbn [url.has_byte]. now rewrite H4, IH.
  - destruct (url.shouldEscape c url.encodeQueryComponent) eqn:Eesc.
    + cbn [url.has_byte]. now rewrite H1, H2, H3, IH.
    + cbn [url.has_byte]. now rewrite (query_literal_no_delimiter c sep Hsep Eesc), IH.
Qed.

Lemma PathEscape_has_byte (s : string) (sep : ascii) :
  In sep ["/"; "?"; "#"; ";"; ","]%char -> url.has_byte (url.PathEscape s) sep = false.
Proof.
  intros Hsep. unfold url.PathEscape.
  assert (Hsep' : In sep ["&"; ";"; "="; "?"; "#"; "/"; ","]%char)
    by (simpl in *; tauto).
  induction s as [|c rest IH]; [reflexivity|].
  destruct (hex_digits_no_delimiter c sep Hsep') as (H1 & H2 & H3 & H4).
  rewrite escape_cons.
  destruct (Ascii.eqb c " " && url.is_query url.encodePathSegment).
  - cbn [url.has_byte]. now rewrite H4, IH.
  - destruct (url.shouldEscape c url.encodePathSegment) eqn:Eesc.
    + cbn [url.has_byte]. now rewrite H1, H2, H3, IH.
    + cbn [url.has_byte]. now rewrite (segment_literal_no_delimiter c sep Hsep Eesc), IH.
Qed.

Lemma has_byte_cons (c sep : ascii) (s : string) :
  url.has_byte (String c s) sep = Ascii.eqb c sep || url.has_byte s sep.
Proof. reflexivity. Qed.

Lemma Cut_absent (s : string) (sep : ascii) :
  url.has_byte s sep = false -> url.Cut s sep = (s, None).
Proof.
  induction s as [|c rest IH]; [reflexivity|].
  rewrite has_byte_cons. intros H. apply orb_false_iff in H as [Hc Hrest].
  simpl. rewrite Hc, (IH Hrest). reflexivity.
Qed.

Lemma Cut_first (before after : string) (sep : ascii) :
  url.has_byte before sep = false ->
  url.Cut (before +:+ String sep after) sep = (before, Some after).
Proof.
  induction before as [|c rest IH].
  - intros _. change ("" +:+ String sep after) with (String sep after).
    simpl. now rewrite Ascii.eqb_refl.
  - rewrite has_byte_cons. intros H. apply orb_false_iff in H as [Hc Hrest].
    rewrite append_cons. simpl. rewrite Hc, (IH Hrest). reflexivity.
Qed.

Lemma Split_absent (s : string) (sep : ascii) :
  url.has_byte s sep = false -> url.Split s sep = [s].
Proof.
  induction s as [|c rest IH]; [reflexivity|].
  rewrite has_byte_cons. intros H. apply orb_false_iff in H as [Hc Hrest].
  simpl. rewrite Hc, (IH Hrest). reflexivity.
Qed.

Lemma Split_first (before after : string) (sep : ascii) :
  url.has_byte before sep = false ->
  url.Split (before +:+ String sep after) sep = before :: url.Split after sep.
Proof.
  induction before as [|c rest IH].
  - intros _. change ("" +:+ String sep after) with (String sep after).
    simpl. now rewrite Ascii.eqb_refl.
  - rewrite has_byte_cons. intros H. apply orb_false_iff in H as [Hc Hrest].
    rewrite append_cons. simpl. rewrite Hc, (IH Hrest). reflexivity.
Qed.

Section Escaping.

Context {Server : Type} (env : client.Env Server).

(** C7.  For every app name, the target of the request of [CreateKey] is
    [/Auth/Keys?app=<v>] where [v] is the percent-encoding of the app name:
    decoding [v] gives the app name back, and the decoded query of the
    target has the one parameter [app], whose value is the app name.  For
    every access token, the target of the request of [DeleteKey] is
    [/Auth/Keys/<v>] where [v] is the percent-encoding of the token as a
    path segment: [v] contains no slash, so that the target has exactly the
    three segments [Auth], [Keys] and [v], and decoding [v] gives the token
    back.  Neither encoding contains a byte that delimits a query, a
    fragment or a path segment. *)
Theorem escaping_round_trips (c : client.Client) (s : string) (w : World Server) :
  (issues w (snd (client.CreateKey env c s w))
     (doRequest_requests env c MethodPost ("/Auth/Keys?app=" +:+ url.QueryEscape s))
   /\ url.QueryUnescape (url.QueryEscape s) = Some s
   /\ Forall (fun sep => url.has_byte (url.QueryEscape s) sep = false)
        ["&"; ";"; "="; "?"; "#"; "/"]%char
   /\ url.RawPath ("/Auth/Keys?app=" +:+ url.QueryEscape s) = "/Auth/Keys"
   /\ url.ParseQuery (url.RawQuery ("/Auth/Keys?app=" +:+ url.QueryEscape s)) = [("app", s)]
   /\ url.Values_Get
        (url.ParseQuery (url.RawQuery ("/Auth/Keys?app=" +:+ url.QueryEscape s))) "app"
      = s)
  /\ (issues w (snd (client.DeleteKey env c s w))
        (doRequest_requests env c MethodDelete ("/Auth/Keys/" +:+ url.PathEscape s))
      /\ url.PathUnescape (url.PathEscape s) = Some s
      /\ Forall (fun sep => url.has_byte (url.PathEscape s) sep = false)
           ["/"; "?"; "#"]%char
      /\ url.Split ("/Auth/Keys/" +:+ url.PathEscape s) "/"
         = [""; "Auth"; "Keys"; url.PathEscape s]).
Proof.
  assert (Hquery : url.ParseQuery (url.RawQuery ("/Auth/Keys?app=" +:+ url.QueryEscape s))
                   = [("app", s)]).
  { change (url.RawQuery ("/Auth/Keys?app=" +:+ url.QueryEscape s))
      with ("app=" +:+ url.QueryEscape s).
    unfold url.ParseQuery.
    rewrite Split_absent
      by (change (url.has_byte ("app=" +:+ url.QueryEscape s) "&")
            with (url.has_byte (url.QueryEscape s) "&");
          apply QueryEscape_has_byte; simpl; auto).
    simpl. unfold url.parseQuery_item.
    change (url.has_byte ("app=" +:+ url.QueryEscape s) ";")
      with (url.has_byte (url.QueryEscape s) ";").
    rewrite QueryEscape_has_byte by (simpl; auto).
    change (String.eqb ("app=" +:+ url.QueryEscape s) "") with false.
    change (url.Cut ("app=" +:+ url.QueryEscape s) "=")
      with ("app", Some (url.QueryEscape s)).
    change (url.QueryUnescape "app") with (Some "app"). simpl.
    unfold url.QueryUnescape, url.QueryEscape. rewrite unescape_escape. reflexivity. }
  split; [split; [|split; [|split; [|split; [|split]]]] | split; [|split; [|split]]].
  - apply (operation_issues env c (OpCreateKey s) w).
  - apply unescape_escape.
  - repeat constructor; apply QueryEscape_has_byte; simpl; tauto.
  - reflexivity.
  - exact Hquery.
  - rewrite Hquery. reflexivity.
  - apply (operation_issues env c (OpDeleteKey s) w).
  - apply unescape_escape.
  - repeat constructor; apply PathEscape_has_byte; simpl; tauto.
  - change ("/Auth/Keys/" +:+ url.PathEscape s)
      with ("" +:+ String "/" ("Auth" +:+ String "/" ("Keys" +:+ String "/" (url.PathEscape s)))).
    rewrite !Split_first by reflexivity.
    rewrite Split_absent by (apply PathEscape_has_byte; simpl; auto).
    reflexivity.
Qed.

End Escaping.

(** ** The managed resource *)

Lemma HasError_app (ds ds' : diag.Diagnostics) :
  diag.HasError (ds ++ ds')%list = diag.HasError ds || diag.HasError ds'.
Proof. unfold diag.HasError. apply existsb_app. Qed.

Lemma HasError_AddError (ds : diag.Diagnostics) (summary detail : string) :
  diag.HasError (diag.AddError ds summary detail) = true.
Proof.
  unfold diag.AddError, diag.Append. simpl.
  destruct (diag.Contains ds _) eqn:E.
  - unfold diag.Contains in E. apply existsb_exists in E as (d & Hd & Heq).
    unfold diag.HasError. apply existsb_exists. exists d. split; [exact Hd|].
    unfold diag.Equal in Heq. simpl in Heq.
    destruct (diag.severity d); [reflexivity|discriminate].
  - rewrite HasError_app. simpl. apply orb_true_r.
Qed.

(** The snapshot reads [true] exactly at the identifiers of the listed
    keys. *)
Lemma snapshot_index (items : list client.APIKey) (id : Z) :
  api_key_resource.index (api_key_resource.snapshot items) id = true <-> listed items id.
Proof.
  unfold api_key_resource.snapshot.
  assert (H : forall m : gmap Z bool,
             api_key_resource.index
               (fold_left (fun existingIDs key => <[client.Id key := true]> existingIDs)
                  items m) id = true
             <-> api_key_resource.index m id = true \/ listed items id).
  { induction items as [|key rest IH]; intros m; simpl.
    - split; [now left|]. intros [H|(key & [] & _)]. exact H.
    - rewrite IH. unfold api_key_resource.index at 1.
      destruct (decide (client.Id key = id)) as [Heq|Hne].
      + rewrite Heq, lookup_insert_eq. simpl. split.
        * intros _. right. exists key. split; [now left|exact Heq].
        * intros _. now left.
      + rewrite lookup_insert_ne by exact Hne.
        fold (api_key_resource.index m id). split.
        * intros [H|(k & Hin & Hk)]; [now left|].
          right. exists k. split; [now right|exact Hk].
        * intros [H|(k & [<-|Hin] & Hk)]; [now left|contradiction|].
          right. now exists k. }
  rewrite H. unfold api_key_resource.index. rewrite lookup_empty. simpl.
  split; [intros [H'|H']; [discriminate|exact H'] | now right].
Qed.

(** The second loop of [Create] finds the first key that is new and
    carries the requested name. *)
Lemma Create_scan_first_match (existing items : list client.APIKey) (appName : string) :
  first_match (fresh_and_named existing appName) items
    (api_key_resource.Create_scan (api_key_resource.snapshot existing) items appName).
Proof.
  assert (Htest : forall key,
             negb (api_key_resource.index (api_key_resource.snapshot existing) (client.Id key))
             && String.eqb (client.AppName key) appName = true
             <-> fresh_and_named existing appName key).
  { intros key. unfold fresh_and_named.
    rewrite andb_true_iff, negb_true_iff, String.eqb_eq, <- snapshot_index.
    now rewrite not_true_iff_false. }
  induction items as [|key rest IH]; simpl.
  - constructor.
  - destruct (negb _ && String.eqb (client.AppName key) appName) eqn:E.
    + exists [], rest.
      split; [reflexivity|]. split; [now apply Htest | constructor].
    + assert (Hkey : ~ fresh_and_named existing appName key)
        by (rewrite <- Htest, E; discriminate).
      destruct (api_key_resource.Create_scan _ rest appName) as [hit|]; simpl in *.
      * destruct IH as (before & after & -> & Hhit & Hbefore).
        exists (key :: before), after.
        split; [reflexivity|]. split; [exact Hhit | now constructor].
      * now constructor.
Qed.

Section ResourceFacts.

Context {Server : Type} (env : client.Env Server).

Import api_key_resource.

(** What [Create] does, call by call. *)
Lemma Create_run (r : APIKeyResource) (req : CreateRequest) (resp : CreateResponse)
    (w : World Server) :
  Create env r req resp w =
  let resp1 := Diagnostics_Append resp (fst (Plan_Get req)) in
  let data := snd (Plan_Get req) in
  let appName := types.ValueString (AppName data) in
  if diag.HasError (Diagnostics resp1) then (resp1, w)
  else
    match client.GetKeys env (client r) w with
    | (Err err, w1) =>
        (Diagnostics_AddError resp1 "Client Error"
           ("Unable to list existing API keys: " +:+ err), w1)
    | (Ok existingKeys, w1) =>
        match client.CreateKey env (client r) appName w1 with
        | (Some err, w2) =>
            (Diagnostics_AddError resp1 "Client Error"
               ("Unable to create API key: " +:+ err), w2)
        | (None, w2) =>
            match client.GetKeys env (client r) w2 with
            | (Err err, w3) =>
                (Diagnostics_AddError resp1 "Client Error"
                   ("Unable to list API keys after creation: " +:+ err), w3)
            | (Ok newKeys, w3) =>
                match Create_scan (snapshot (client.Items existingKeys))
                        (client.Items newKeys) appName with
                | None =>
                    (Diagnostics_AddError resp1 "Client Error"
                       "Unable to find the newly created API key", w3)
                | Some createdKey =>
                    (State_Set resp1
                       {| ID := types.StringValue (client.AccessToken createdKey);
                          AppName := AppName data;
                          AccessToken := types.StringValue (client.AccessToken createdKey);
                          DateCreated := types.StringValue (client.DateCreated createdKey) |},
                     w3)
                end
            end
        end
    end.
Proof.
  unfold Create. destruct (Plan_Get req) as [diags data]. cbv zeta. simpl fst. simpl snd.
  destruct (diag.HasError _); [reflexivity|].
  unfold bind.
  destruct (client.GetKeys env (client r) w) as [[existingKeys|err] w1]; [|reflexivity].
  destruct (client.CreateKey env (client r) _ w1) as [[err|] w2]; [reflexivity|].
  destruct (client.GetKeys env (client r) w2) as [[newKeys|err] w3]; [|reflexivity].
  destruct (Create_scan _ _ _); reflexivity.
Qed.

Lemma AddError_fails (resp : CreateResponse) (diags : diag.Diagnostics)
    (summary detail : string) (w : World Server) :
  let resp' := Diagnostics_AddError (Diagnostics_Append resp diags) summary detail in
  diag.HasError (Diagnostics (fst (resp', w))) = true /\ State (fst (resp', w)) = State resp.
Proof. split; [apply HasError_AddError | reflexivity]. Qed.

(** A call of [GetKeys] that returns a list has handed its request to the
    transport. *)
Lemma GetKeys_Ok_issues (c : client.Client) (w w' : World Server)
    (result : client.APIKeyQueryResult) :
  client.GetKeys env c w = (Ok result, w') ->
  issues w w' [authorized_request c MethodGet keys_path].
Proof.
  intros H. pose proof (doRequest_issues env c MethodGet keys_path w) as Hissues.
  rewrite <- GetKeys_world, H in Hissues. simpl in Hissues.
  rewrite GetKeys_run, doRequest_run in H.
  unfold doRequest_requests in Hissues.
  destruct (client.url_error env _) as [err|]; [discriminate|]. exact Hissues.
Qed.

Lemma CreateKey_None_issues (c : client.Client) (appName : string) (w w' : World Server) :
  client.CreateKey env c appName w = (None, w') ->
  issues w w' [authorized_request c MethodPost (create_path appName)].
Proof.
  intros H.
  pose proof (operation_issues env c (OpCreateKey appName) w) as Hissues.
  simpl in Hissues. rewrite H in Hissues. simpl in Hissues.
  rewrite CreateKey_run, doRequest_run in H.
  unfold doRequest_requests in Hissues.
  destruct (client.url_error env _) as [err|]; [discriminate|]. exact Hissues.
Qed.

Lemma issues_trans (w1 w2 w3 : World Server) (reqs reqs' : list Request) :
  issues w1 w2 reqs -> issues w2 w3 reqs' -> issues w1 w3 (reqs ++ reqs').
Proof. unfold issues. intros H1 H2. now rewrite H2, H1, app_assoc. Qed.

(** C1 (amended).  When the plan is read without error, the list before
    the creation is [existingKeys], [CreateKey] succeeds and the list after
    it is [newKeys]: the snapshot holds exactly the identifiers of
    [existingKeys], [Create] has issued exactly the three requests list,
    create, list, and the key it selects is the first key of [newKeys], in
    list order, whose identifier is not in the snapshot and whose [AppName]
    is the requested name (the name is required of every candidate).  When there is such a key, [Create] writes the state from
    it and adds no diagnostic; when there is none, it reports an error and
    writes no state. *)
Theorem Create_selects_first_new_key_with_name
    (r : APIKeyResource) (req : CreateRequest) (resp : CreateResponse)
    (w w1 w2 w3 : World Server) (existingKeys newKeys : client.APIKeyQueryResult) :
  let data := snd (Plan_Get req) in
  let appName := types.ValueString (AppName data) in
  let resp1 := Diagnostics_Append resp (fst (Plan_Get req)) in
  diag.HasError (Diagnostics resp1) = false ->
  client.GetKeys env (client r) w = (Ok existingKeys, w1) ->
  client.CreateKey env (client r) appName w1 = (None, w2) ->
  client.GetKeys env (client r) w2 = (Ok newKeys, w3) ->
  exists selected : option client.APIKey,
    (forall id : Z,
        index (snapshot (client.Items existingKeys)) id = true
        <-> listed (client.Items existingKeys) id)
    /\ first_match (fresh_and_named (client.Items existingKeys) appName)
         (client.Items newKeys) selected
    /\ snd (Create env r req resp w) = w3
    /\ issues w w3 (Create_requests (client r) appName)
    /\ match selected with
       | Some createdKey =>
           State (fst (Create env r req resp w))
           = Some {| ID := types.StringValue (client.AccessToken createdKey);
                     AppName := AppName data;
                     AccessToken := types.StringValue (client.AccessToken createdKey);
                     DateCreated := types.StringValue (client.DateCreated createdKey) |}
           /\ Diagnostics (fst (Create env r req resp w)) = Diagnostics resp1
       | None =>
           State (fst (Create env r req resp w)) = State resp
           /\ diag.HasError (Diagnostics (fst (Create env r req resp w))) = true
       end.
Proof.
  cbv zeta. intros Hplan Hlist Hcreate Hrelist.
  exists (Create_scan (snapshot (client.Items existingKeys)) (client.Items newKeys)
            (types.ValueString (AppName (snd (Plan_Get req))))).
  split; [intros id; apply snapshot_index|].
  split; [apply Create_scan_first_match|].
  rewrite Create_run. cbv zeta. rewrite Hplan, Hlist, Hcreate, Hrelist.
  assert (Hissues : issues w w3
            (Create_requests (client r) (types.ValueString (AppName (snd (Plan_Get req)))))).
  { apply (issues_trans w w1 w3 [_] [_; _]); [eapply GetKeys_Ok_issues; eassumption|].
    apply (issues_trans w1 w2 w3 [_] [_]); [now apply CreateKey_None_issues|].
    eapply GetKeys_Ok_issues; eassumption. }
  destruct (Create_scan _ _ _) as [createdKey|]; simpl.
  - repeat split; assumption.
  - repeat split; try assumption. apply HasError_AddError.
Qed.

(** C10.  When [Create] fails on the way to the created key, in any of the
    four ways of [Create_fails], it reports an error and leaves the state as
    it was: nothing is written. *)
Theorem Create_failure_writes_no_state
    (r : APIKeyResource) (req : CreateRequest) (resp : CreateResponse) (w : World Server) :
  Create_fails env (client r) (types.ValueString (AppName (snd (Plan_Get req)))) w ->
  diag.HasError (Diagnostics (fst (Create env r req resp w))) = true
  /\ State (fst (Create env r req resp w)) = State resp.
Proof.
  unfold Create_fails. intros Hfail. rewrite Create_run. cbv zeta.
  destruct (diag.HasError (Diagnostics (Diagnostics_Append resp (fst (Plan_Get req)))))
    eqn:Hplan; [simpl; split; [exact Hplan | reflexivity]|].
  destruct (client.GetKeys env (client r) w) as [[existingKeys|err] w1];
    [|apply AddError_fails].
  destruct (client.CreateKey env (client r) _ w1) as [[err|] w2];
    [apply AddError_fails|].
  destruct (client.GetKeys env (client r) w2) as [[newKeys|err] w3];
    [|apply AddError_fails].
  pose proof (Create_scan_first_match (client.Items existingKeys) (client.Items newKeys)
                (types.ValueString (AppName (snd (Plan_Get req))))) as Hscan.
  destruct (Create_scan _ _ _) as [createdKey|]; [|apply AddError_fails].
  destruct Hscan as (before & after & Hitems & Hkey & _).
  rewrite Hitems in Hfail. apply Forall_app in Hfail as [_ Hfail].
  inversion Hfail; subst. contradiction.
Qed.

End ResourceFacts.

(** ** Round-trips *)

Section RoundTrips.

Context {Server : Type} (env : client.Env Server).

Import api_key_resource.


End RoundTrips.

(** ** The data source *)

Lemma Equal_eq (a b : diag.Diagnostic) : diag.Equal a b = true -> a = b.
Proof.
  unfold diag.Equal. destruct a as [sa ma da], b as [sb mb db]; simpl.
  intros H. apply andb_true_iff in H as [H Hd]. apply andb_true_iff in H as [Hs Hm].
  apply String.eqb_eq in Hd, Hm. subst.
  destruct sa, sb; try discriminate; reflexivity.
Qed.

Lemma In_AddError (ds : diag.Diagnostics) (summary detail : string) :
  In (diag.mkDiagnostic diag.SeverityError summary detail) (diag.AddError ds summary detail).
Proof.
  unfold diag.AddError, diag.Append. simpl.
  destruct (diag.Contains ds _) eqn:E.
  - unfold diag.Contains in E. apply existsb_exists in E as (d & Hd & Heq).
    apply Equal_eq in Heq. now subst.
  - apply in_or_app. right. now left.
Qed.

Section DataSourceFacts.

Context {Server : Type} (env : client.Env Server).

Import api_key_data_source.

(** C8 (amended).  A read whose configuration is decoded without error
    needs at least one of app name and access token.  When neither is
    supplied it sends nothing, adds the error [Missing Required Attribute]
    and writes no state.  When the access token is supplied, alone or
    together with the app name, it looks the key up by access token; when
    only the app name is supplied, it looks the key up by app name. *)
Theorem Read_requires_an_attribute
    (d : APIKeyDataSource) (req : ReadRequest) (resp : ReadResponse) (w : World Server) :
  let data := snd (Config_Get req) in
  let resp1 := Diagnostics_Append resp (fst (Config_Get req)) in
  diag.HasError (Diagnostics resp1) = false ->
  (hasAppName data = false -> hasAccessToken data = false ->
     snd (Read env d req resp w) = w
     /\ In missing_attribute (Diagnostics (fst (Read env d req resp w)))
     /\ diag.HasError (Diagnostics (fst (Read env d req resp w))) = true
     /\ State (fst (Read env d req resp w)) = State resp)
  /\ (hasAccessToken data = true ->
        Read env d req resp w
        = Read_outcome resp1
            (client.GetKeyByAccessToken env (client d)
               (types.ValueString (AccessToken data)) w))
  /\ (hasAccessToken data = false -> hasAppName data = true ->
        Read env d req resp w
        = Read_outcome resp1
            (client.FindKeyByAppName env (client d)
               (types.ValueString (AppName data)) w)).
Proof.
  cbv zeta. intros Hconfig. unfold Read.
  destruct (Config_Get req) as [diags data]. cbn [fst snd] in *. cbv beta iota zeta.
  rewrite Hconfig.
  split; [|split].
  - intros -> ->. cbn [negb andb]. unfold ret. cbn [fst snd].
    split; [reflexivity|]. split; [apply In_AddError|].
    split; [apply HasError_AddError | reflexivity].
  - intros ->. rewrite andb_false_r. unfold bind, Read_outcome.
    destruct (client.GetKeyByAccessToken env _ _ w) as [[[key|]|err] w']; reflexivity.
  - intros -> ->. cbn [negb andb]. unfold bind, Read_outcome.
    destruct (client.FindKeyByAppName env _ _ w) as [[[key|]|err] w']; reflexivity.
Qed.

End DataSourceFacts.

(** * Concrete runs against the scripted server *)

(** The end-to-end lookups of the specification: with the keys [token-1]
    and [token-2] on the server, [GetKey] finds the record of [token-2],
    finds nothing for [missing], and [FindKeyByAppName] finds the same
    record as [GetKey]. *)
Example lookup_end_to_end :
  let w := fake.world [fake.respond 200 "keys: 1 2"] in
  fst (client.GetKey fake.env fake.c "token-2" w) = Ok (Some fake.token2)
  /\ fst (client.GetKey fake.env fake.c "missing" w) = Ok None
  /\ fst (client.FindKeyByAppName fake.env fake.c "App Two" w)
     = fst (client.GetKey fake.env fake.c "token-2" w).
Proof. vm_compute. repeat split. Qed.

(** With two keys of the same name, the first in list order is returned. *)
Lemma lookup_returns_first_match_witness :
  exists byToken byName : option client.APIKey,
    fst (client.GetKey fake.env fake.c "token-3" (fake.world [fake.respond 200 "keys: 1 2 3"]))
    = Ok byToken
    /\ byToken = Some fake.token3
    /\ fst (client.FindKeyByAppName fake.env fake.c "App Two"
              (fake.world [fake.respond 200 "keys: 1 2 3"]))
       = Ok byName
    /\ byName = Some fake.token2.
Proof.
  pose proof (lookup_returns_first_match fake.env fake.c "token-3" "App Two"
                (fake.world [fake.respond 200 "keys: 1 2 3"])) as H.
  replace (client.GetKeys fake.env fake.c (fake.world [fake.respond 200 "keys: 1 2 3"]))
    with (Ok (fake.keys [fake.token1; fake.token2; fake.token3]),
          snd (client.GetKeys fake.env fake.c (fake.world [fake.respond 200 "keys: 1 2 3"])))
    in H by (vm_compute; reflexivity).
  destruct H as (byToken & byName & HgetKey & _ & Hfind & _).
  exists byToken, byName.
  rewrite HgetKey, Hfind. cbn [fst].
  split; [reflexivity|]. split; [|split; [reflexivity|]].
  - vm_compute in HgetKey. now injection HgetKey as <-.
  - vm_compute in Hfind. now injection Hfind as <-.
Defined.

(** The percent-encodings of the specification. *)
Example escaping_examples :
  url.QueryEscape "My App & Test" = "My+App+%26+Test"
  /\ url.Values_Get (url.ParseQuery (url.RawQuery (create_path "My App & Test"))) "app"
     = "My App & Test"
  /\ delete_path "token/with/slashes" = "/Auth/Keys/token%2Fwith%2Fslashes"
  /\ url.Split (delete_path "token/with/slashes") "/"
     = [""; "Auth"; "Keys"; "token%2Fwith%2Fslashes"].
Proof. vm_compute. repeat split. Qed.

(** C1, the claim as stated fails: [token-2] is the only key of the
    re-fetched list that is absent from the snapshot, so the selection that
    uses the name only to break ties picks it; [Create], asked for another
    name, selects no key, reports an error and writes no state. *)
Lemma Create_passes_over_the_only_new_key :
  let existing := [fake.token1] in
  let relisted := [fake.token1; fake.token2] in
  let outcome :=
    fst (api_key_resource.Create fake.env fake.resource0 (fake.plan "My App")
           fake.no_state (fake.world fake.creation)) in
  first_match (fun key => ~ listed existing (client.Id key)) relisted (Some fake.token2)
  /\ tie_break_selection (api_key_resource.snapshot existing) relisted "My App"
     = Some fake.token2
  /\ api_key_resource.Create_scan (api_key_resource.snapshot existing) relisted "My App"
     = None
  /\ api_key_resource.State outcome = None
  /\ diag.HasError (api_key_resource.Diagnostics outcome) = true.
Proof.
  cbv zeta. split; [|vm_compute; repeat split].
  exists [fake.token1], []. split; [reflexivity|]. split.
  - intros (key & [<-|[]] & Hid). discriminate Hid.
  - constructor; [|constructor]. intros H. apply H.
    exists fake.token1. split; [now left | reflexivity].
Qed.


(** C8, the claim as stated fails: a read that supplies both attributes
    is not rejected; it looks the key up by access token and writes the
    state from it. *)
Lemma Read_accepts_both_attributes :
  let req := fake.query (types.StringValue "App One") (types.StringValue "token-2") in
  let data := snd (api_key_data_source.Config_Get req) in
  let outcome :=
    fst (api_key_data_source.Read fake.env fake.datasource0 req fake.no_data
           (fake.world [fake.respond 200 "keys: 1 2"])) in
  api_key_data_source.hasAppName data = true
  /\ api_key_data_source.hasAccessToken data = true
  /\ api_key_data_source.Diagnostics outcome = []
  /\ api_key_data_source.State outcome
     = Some {| api_key_data_source.ID := types.StringValue "token-2";
               api_key_data_source.AppName := types.StringValue "App Two";
               api_key_data_source.AccessToken := types.StringValue "token-2";
               api_key_data_source.DateCreated := types.StringValue "2024-01-02T00:00:00Z" |}.
Proof. vm_compute. repeat split. Qed.

(** The creation of [App Two] against the scripted server selects
    [token-2] and writes the state from it. *)
Lemma Create_selects_first_new_key_with_name_witness :
  let w := fake.world fake.creation in
  let w1 := snd (client.GetKeys fake.env fake.c w) in
  let w2 := snd (client.CreateKey fake.env fake.c "App Two" w1) in
  let w3 := snd (client.GetKeys fake.env fake.c w2) in
  exists selected : option client.APIKey,
    first_match (fresh_and_named [fake.token1] "App Two")
      [fake.token1; fake.token2] selected
    /\ issues w w3 (Create_requests fake.c "App Two")
    /\ selected = Some fake.token2.
Proof.
  cbv zeta.
  destruct (Create_selects_first_new_key_with_name fake.env fake.resource0
              (fake.plan "App Two") fake.no_state (fake.world fake.creation)
              (snd (client.GetKeys fake.env fake.c (fake.world fake.creation)))
              (snd (client.CreateKey fake.env fake.c "App Two"
                      (snd (client.GetKeys fake.env fake.c (fake.world fake.creation)))))
              (snd (client.GetKeys fake.env fake.c
                      (snd (client.CreateKey fake.env fake.c "App Two"
                              (snd (client.GetKeys fake.env fake.c
                                      (fake.world fake.creation)))))))
              (fake.keys [fake.token1]) (fake.keys [fake.token1; fake.token2]))
    as (selected & _ & Hfirst & _ & Hissues & Hstate);
    try (vm_compute; reflexivity).
  exists selected. split; [exact Hfirst|]. split; [exact Hissues|].
  apply (first_match_unique _ _ _ _ Hfirst).
  exists [fake.token1], []. split; [reflexivity|]. split; [split|].
  - intros (key & [<-|[]] & Hid). discriminate Hid.
  - reflexivity.
  - constructor; [|constructor]. intros [Hnew _]. apply Hnew.
    exists fake.token1. split; [now left | reflexivity].
Defined.

(** A creation after which no new key carries the requested name fails
    in the fourth way, and writes nothing. *)
Lemma Create_failure_writes_no_state_witness :
  let outcome :=
    fst (api_key_resource.Create fake.env fake.resource0 (fake.plan "My App")
           fake.no_state (fake.world fake.creation)) in
  diag.HasError (api_key_resource.Diagnostics outcome) = true
  /\ api_key_resource.State outcome = None.
Proof.
  apply (Create_failure_writes_no_state fake.env fake.resource0 (fake.plan "My App")
           fake.no_state (fake.world fake.creation)).
  vm_compute.
  constructor; [|constructor; [|constructor]].
  - intros [Hnew _]. apply Hnew. eexists. split; [left; reflexivity | reflexivity].
  - intros [_ Hname]. discriminate Hname.
Defined.

(** A creation answered with 204 succeeds; a deletion answered with 404
    and a list answered with 401 fail with errors that tell the status and
    the body. *)
Lemma status_decides_outcome_witness :
  fst (client.CreateKey fake.env fake.c "My App" (fake.world [fake.respond 204 ""])) = None
  /\ (exists msg,
        fst (client.DeleteKey fake.env fake.c "token-1"
               (fake.world [fake.respond 404 "no such key"])) = Some msg
        /\ reports msg {| StatusCode := 404; Body := "no such key" |})
  /\ (exists msg,
        fst (client.GetKeys fake.env fake.c (fake.world [fake.respond 401 "denied"])) = Err msg
        /\ reports msg {| StatusCode := 401; Body := "denied" |}).
Proof.
  split; [|split].
  - destruct (status_decides_outcome fake.env fake.c (fake.world [fake.respond 204 ""]))
      as (Hcreate & _ & _).
    apply (Hcreate "My App" {| StatusCode := 204; Body := "" |}); [reflexivity|].
    right. reflexivity.
  - destruct (status_decides_outcome fake.env fake.c
                (fake.world [fake.respond 404 "no such key"])) as (_ & Hdelete & _).
    apply (Hdelete "token-1" {| StatusCode := 404; Body := "no such key" |});
      [reflexivity|].
    simpl. lia.
  - destruct (status_decides_outcome fake.env fake.c (fake.world [fake.respond 401 "denied"]))
      as (_ & _ & Hlist).
    apply (Hlist {| StatusCode := 401; Body := "denied" |}); [reflexivity|].
    simpl. lia.
Defined.



(** A configuration that overrides the client name only: the header has
    that name and the three other defaults. *)
Lemma identification_defaults_witness :
  let config :=
    Some {| client.Endpoint := ""; client.ClientName := "PartialClient";
            client.DeviceName := ""; client.DeviceID := ""; client.ClientVersion := "" |} in
  exists reqs : list Request,
    issues (fake.world [fake.respond 200 "auth: secret"])
      (snd (client.NewClientWithAuthAndConfig fake.env "http://localhost:8096" "admin" "pw"
              config (fake.world [fake.respond 200 "auth: secret"])))
      reqs
    /\ List.length reqs = 1%nat
    /\ Forall
         (fun req =>
            Header_Get req "Authorization"
            = Some (client.identification_header "PartialClient" "Terraform Provider"
                      "terraform-provider-jellyfin" "1.0.0"))
         reqs.
Proof.
  cbv zeta.
  destruct (identification_defaults fake.env "http://localhost:8096" "admin" "pw"
              (Some {| client.Endpoint := ""; client.ClientName := "PartialClient";
                       client.DeviceName := ""; client.DeviceID := "";
                       client.ClientVersion := "" |})
              (fake.world [fake.respond 200 "auth: secret"]))
    as (clientName & deviceName & deviceID & clientVersion
        & [_ Hname] & [Hdevice _] & [Hid _] & [Hversion _] & reqs & Hissues & Hheader & Hone).
  simpl in Hname, Hdevice, Hid, Hversion.
  rewrite Hname, (Hdevice eq_refl), (Hid eq_refl), (Hversion eq_refl) in Hheader
    by discriminate.
  exists reqs. split; [exact Hissues|]. split; [apply Hone; reflexivity | exact Hheader].
Defined.

(** A read that names neither attribute is rejected without a request; a
    read by access token is a lookup by access token. *)
Lemma Read_requires_an_attribute_witness :
  (let outcome :=
     api_key_data_source.Read fake.env fake.datasource0
       (fake.query types.StringNull types.StringNull) fake.no_data
       (fake.world [fake.respond 200 "keys: 1 2"]) in
   snd outcome = fake.world [fake.respond 200 "keys: 1 2"]
   /\ In missing_attribute (api_key_data_source.Diagnostics (fst outcome))
   /\ diag.HasError (api_key_data_source.Diagnostics (fst outcome)) = true
   /\ api_key_data_source.State (fst outcome) = None)
  /\ api_key_data_source.Read fake.env fake.datasource0
       (fake.query types.StringNull (types.StringValue "token-2")) fake.no_data
       (fake.world [fake.respond 200 "keys: 1 2"])
     = Read_outcome fake.no_data
         (client.GetKeyByAccessToken fake.env fake.c "token-2"
            (fake.world [fake.respond 200 "keys: 1 2"])).
Proof.
  split.
  - destruct (Read_requires_an_attribute fake.env fake.datasource0
                (fake.query types.StringNull types.StringNull) fake.no_data
                (fake.world [fake.respond 200 "keys: 1 2"]) eq_refl) as (Hneither & _).
    apply Hneither; reflexivity.
  - destruct (Read_requires_an_attribute fake.env fake.datasource0
                (fake.query types.StringNull (types.StringValue "token-2")) fake.no_data
                (fake.world [fake.respond 200 "keys: 1 2"]) eq_refl) as (_ & Htoken & _).
    apply Htoken. reflexivity.
Defined.


(** * Further properties of the client *)

Section ClientExtras.

Context {Server : Type} (env : client.Env Server).

(** X1.  [GetKeys] returns a list exactly when its request is built, the
    transport answers it, the status is 200 (204 is not accepted here) and
    the body decodes; the list returned is the decoded one. *)
Theorem GetKeys_returns_list_iff (c : client.Client) (w : World Server)
    (result : client.APIKeyQueryResult) :
  fst (client.GetKeys env c w) = Ok result <->
  client.url_error env (client.endpoint c +:+ "/Auth/Keys") = None
  /\ exists resp : Response,
       fst (client.Do env (authorized_request c MethodGet "/Auth/Keys") (server w)) = Ok resp
       /\ StatusCode resp = 200
       /\ client.json_Decode_keys env (Body resp) = Ok result.
Proof.
  rewrite GetKeys_run, doRequest_run. unfold keys_path.
  destruct (client.url_error env _) as [cause|]; cbv zeta.
  { split; [discriminate | intros [H _]; discriminate H]. }
  destruct (client.Do env _ (server w)) as [[resp|cause] s]; cbn [fst].
  2:{ split; [discriminate | intros (_ & resp & H & _); discriminate H]. }
  unfold StatusOK.
  destruct (Z.eqb_spec (StatusCode resp) 200) as [Hst|Hst]; cbn [negb].
  - destruct (client.json_Decode_keys env (Body resp)) as [decoded|cause] eqn:Hdec.
    + split.
      * intros H. injection H as <-. split; [reflexivity|]. now exists resp.
      * intros (_ & resp' & Hresp & _ & Hdec'). injection Hresp as <-. congruence.
    + split; [discriminate|].
      intros (_ & resp' & Hresp & _ & Hdec'). injection Hresp as <-. congruence.
  - split; [discriminate|].
    intros (_ & resp' & Hresp & Hst' & _). injection Hresp as <-. contradiction.
Qed.

Lemma operation_error_run (c : client.Client) (op : operation) (w : World Server) :
  match client.doRequest env c (operation_method op) (operation_path op) w with
  | (Err cause, w') =>
      operation_error env c op w = Some cause /\ operation_world env c op w = w'
  | (Ok _, w') => operation_world env c op w = w'
  end.
Proof.
  destruct op as [|token|appName|token|appName]; simpl;
    rewrite ?GetKey_run, ?FindKeyByAppName_run, ?GetKeys_run, ?CreateKey_run, ?DeleteKey_run;
    match goal with
    | |- context [client.doRequest env c ?m ?p w] =>
        destruct (client.doRequest env c m p w) as [[resp|cause] w']
    end; simpl; try (split; reflexivity); try reflexivity;
    repeat match goal with
           | |- context [if ?b then _ else _] => destruct b
           | |- context [match ?d with Ok _ => _ | Err _ => _ end] => destruct d
           end; reflexivity.
Qed.

(** X2.  An operation whose request cannot be built returns the error
    [failed to create request: <cause>] and leaves the world untouched; an
    operation whose request the transport fails to carry returns
    [failed to execute request: <cause>].  In both cases the cause is passed
    on in full. *)
Theorem failure_before_response (c : client.Client) (op : operation) (w : World Server) :
  (forall cause : error,
      client.url_error env (client.endpoint c +:+ operation_path op) = Some cause ->
      operation_error env c op w = Some ("failed to create request: " +:+ cause)
      /\ operation_world env c op w = w)
  /\ (forall cause : error,
        client.url_error env (client.endpoint c +:+ operation_path op) = None ->
        fst (client.Do env (authorized_request c (operation_method op) (operation_path op))
               (server w)) = Err cause ->
        operation_error env c op w = Some ("failed to execute request: " +:+ cause)).
Proof.
  pose proof (operation_error_run c op w) as Hrun. rewrite doRequest_run in Hrun.
  split.
  - intros cause Hurl. rewrite Hurl in Hrun. exact Hrun.
  - intros cause Hurl Hdo. rewrite Hurl in Hrun. cbv zeta in Hrun.
    destruct (client.Do env _ (server w)) as [[resp|cause'] s]; cbn [fst] in Hdo;
      [discriminate|].
    injection Hdo as ->. apply Hrun.
Qed.

(** X6.  A failed authentication tells why: a transport failure is passed
    on as [failed to authenticate: <cause>], a status other than 200 gives
    an error that contains the status code and the body (which is not
    decoded), and a body that does not decode is passed on as
    [failed to decode auth response: <cause>]. *)
Theorem authentication_failure_reports (endpoint username password : string)
    (config : option client.ClientConfig) (w : World Server) :
  let req := authentication_request env endpoint username password config in
  let outcome :=
    fst (client.NewClientWithAuthAndConfig env endpoint username password config w) in
  client.url_error env (authentication_url endpoint) = None ->
  (forall cause : error,
      fst (client.Do env req (server w)) = Err cause ->
      outcome = Err ("failed to authenticate: " +:+ cause))
  /\ (forall resp : Response,
        fst (client.Do env req (server w)) = Ok resp ->
        StatusCode resp <> 200 ->
        exists msg : error, outcome = Err msg /\ reports msg resp)
  /\ (forall (resp : Response) (cause : error),
        fst (client.Do env req (server w)) = Ok resp ->
        StatusCode resp = 200 ->
        client.json_Decode_auth env (Body resp) = Err cause ->
        outcome = Err ("failed to decode auth response: " +:+ cause)).
Proof.
  cbv zeta. intros Hurl. rewrite NewClientWithAuthAndConfig_run, Hurl. cbv zeta.
  destruct (client.Do env _ (server w)) as [[resp|cause] s]; cbn [fst];
    (split; [|split]); try (intros; discriminate).
  - intros resp' Hresp Hst. injection Hresp as <-.
    unfold authentication_result, StatusOK.
    destruct (Z.eqb_spec (StatusCode resp) 200) as [E|_]; [contradiction|]. cbn [negb].
    eexists. split; [reflexivity|]. split.
    + apply Contains_middle.
    + rewrite <- !append_assoc. apply Contains_end.
  - intros resp' cause Hresp Hst Hdec. injection Hresp as <-.
    unfold authentication_result, StatusOK. rewrite Hst, Hdec. reflexivity.
  - intros cause' H. now injection H as ->.
Qed.

(** X7.  The credentials travel in the body of the authentication request
    and nowhere else: whatever the user name and the password, the method,
    the URL and the header of the request are the same, and its body is the
    marshalled pair. *)
Theorem credentials_travel_in_the_body_only
    (endpoint username password username' password' : string)
    (config : option client.ClientConfig) (w : World Server) (reqs reqs' : list Request) :
  issues w
    (snd (client.NewClientWithAuthAndConfig env endpoint username password config w)) reqs ->
  issues w
    (snd (client.NewClientWithAuthAndConfig env endpoint username' password' config w))
    reqs' ->
  List.map request_line reqs = List.map request_line reqs'
  /\ Forall (fun req =>
               ReqBody req
               = Some (client.json_Marshal env
                         {| client.Username := username; client.Pw := password |}))
       reqs.
Proof.
  unfold issues. rewrite !NewClientWithAuthAndConfig_run.
  destruct (client.url_error env _) as [cause|]; cbv zeta.
  - cbn [snd]. intros H H'.
    rewrite <- (app_nil_r (wire w)) in H at 1. apply app_inv_head in H.
    rewrite <- (app_nil_r (wire w)) in H' at 1. apply app_inv_head in H'.
    subst. split; [reflexivity | constructor].
  - intros H H'.
    assert (Hreqs : reqs = [authentication_request env endpoint username password config]).
    { destruct (client.Do env _ (server w)) as [[resp|cause] s]; cbn [snd wire] in H;
        now apply app_inv_head in H. }
    assert (Hreqs' : reqs' = [authentication_request env endpoint username' password' config]).
    { destruct (client.Do env (authentication_request env endpoint username' password' config)
                  (server w)) as [[resp|cause] s]; cbn [snd wire] in H';
        now apply app_inv_head in H'. }
    subst. split; [reflexivity|]. repeat constructor.
Qed.

End ClientExtras.

(** * Further properties of the request targets *)

Lemma string_forall_cons (check : ascii -> bool) (c : ascii) (s : string) :
  string_forall check (String c s) = check c && string_forall check s.
Proof. reflexivity. Qed.

(** What is written for one byte is safe, whatever the byte. *)
Lemma escaped_byte_safe (c : ascii) :
  query_safe (url.upperhex (Nat.shiftr (nat_of_ascii c) 4)) = true
  /\ query_safe (url.upperhex (Nat.land (nat_of_ascii c) 15)) = true
  /\ segment_safe (url.upperhex (Nat.shiftr (nat_of_ascii c) 4)) = true
  /\ segment_safe (url.upperhex (Nat.land (nat_of_ascii c) 15)) = true
  /\ (url.shouldEscape c url.encodeQueryComponent = false -> query_safe c = true)
  /\ (url.shouldEscape c url.encodePathSegment = false -> segment_safe c = true).
Proof.
  pose proof (for_all_bytes
    (fun c =>
       query_safe (url.upperhex (Nat.shiftr (nat_of_ascii c) 4))
       && query_safe (url.upperhex (Nat.land (nat_of_ascii c) 15))
       && segment_safe (url.upperhex (Nat.shiftr (nat_of_ascii c) 4))
       && segment_safe (url.upperhex (Nat.land (nat_of_ascii c) 15))
       && (url.shouldEscape c url.encodeQueryComponent || query_safe c)
       && (url.shouldEscape c url.encodePathSegment || segment_safe c))
    ltac:(vm_compute; reflexivity) c) as H.
  cbv beta in H. repeat (apply andb_true_iff in H as [H ?]).
  repeat split; try assumption.
  - intros E. rewrite E in *. assumption.
  - intros E. rewrite E in *. assumption.
Qed.

(** X3.  Whatever bytes an app name or an access token consists of,
    control bytes, spaces and non-ASCII bytes included, the escaped query
    value consists of letters, digits and [-_.~+%] only, and the escaped path
    segment of letters, digits and [-_.~$&+=:@%] only. *)
Theorem escaped_targets_are_url_safe (s : string) :
  string_forall query_safe (url.QueryEscape s) = true
  /\ string_forall segment_safe (url.PathEscape s) = true.
Proof.
  unfold url.QueryEscape, url.PathEscape.
  induction s as [|c rest [IHq IHp]]; [split; reflexivity|].
  destruct (escaped_byte_safe c) as (Hq1 & Hq2 & Hp1 & Hp2 & Hq & Hp).
  rewrite !escape_cons. split.
  - destruct (Ascii.eqb c " " && url.is_query url.encodeQueryComponent).
    + rewrite string_forall_cons, IHq. reflexivity.
    + destruct (url.shouldEscape c url.encodeQueryComponent) eqn:E.
      * rewrite !string_forall_cons, Hq1, Hq2, IHq. reflexivity.
      * rewrite string_forall_cons, (Hq eq_refl), IHq. reflexivity.
  - cbn [url.is_query]. rewrite andb_false_r.
    destruct (url.shouldEscape c url.encodePathSegment) eqn:E.
    + rewrite !string_forall_cons, Hp1, Hp2, IHp. reflexivity.
    + rewrite string_forall_cons, (Hp eq_refl), IHp. reflexivity.
Qed.

Lemma append_inj_l (p a b : string) : p +:+ a = p +:+ b -> a = b.
Proof.
  induction p as [|x p IH]; [now intros H|].
  rewrite !append_cons. intros H. injection H as H. now apply IH.
Qed.

(** X4.  Different app names give different creation targets and
    different access tokens give different deletion targets: a request for
    one key is never the request for another. *)
Theorem distinct_values_distinct_targets (a b : string) :
  a <> b -> create_path a <> create_path b /\ delete_path a <> delete_path b.
Proof.
  intros Hab. unfold create_path, delete_path. split; intros H;
    apply append_inj_l in H; apply Hab.
  - pose proof (unescape_escape a url.encodeQueryComponent) as Ha.
    unfold url.QueryEscape in H. rewrite H, unescape_escape in Ha. now injection Ha.
  - pose proof (unescape_escape a url.encodePathSegment) as Ha.
    unfold url.PathEscape in H. rewrite H, unescape_escape in Ha. now injection Ha.
Qed.

(** * Further properties of the lookups *)

Lemma scan_In (items : list client.APIKey) (token : string) (key : client.APIKey) :
  client.GetKey_scan items token = Some key -> In key items.
Proof.
  induction items as [|k rest IH]; simpl; [discriminate|].
  destruct (String.eqb _ token).
  - intros H. injection H as ->. now left.
  - intros H. right. now apply IH.
Qed.

Lemma unique_name_scan (items : list client.APIKey) (key : client.APIKey) :
  NoDup (List.map client.AppName items) -> In key items ->
  client.FindKeyByAppName_scan items (client.AppName key) = Some key.
Proof.
  induction items as [|k rest IH]; simpl; [contradiction|].
  intros Hnodup Hin. apply NoDup_cons in Hnodup as [Hk Hrest].
  destruct Hin as [->|Hin].
  - now rewrite String.eqb_refl.
  - destruct (String.eqb_spec (client.AppName k) (client.AppName key)) as [E|_].
    + exfalso. apply Hk. rewrite E. apply list_elem_of_In, List.in_map, Hin.
    + now apply IH.
Qed.

Section LookupExtras.

Context {Server : Type} (env : client.Env Server).

(** X5.  When the app names of the listed keys are pairwise different,
    the two lookups agree: the key that [GetKey] finds for an access token
    is the key that [FindKeyByAppName] finds for that key's app name. *)
Theorem lookups_agree_on_unique_names (c : client.Client) (w : World Server)
    (result : client.APIKeyQueryResult) (token : string) (key : client.APIKey) :
  fst (client.GetKeys env c w) = Ok result ->
  NoDup (List.map client.AppName (client.Items result)) ->
  fst (client.GetKey env c token w) = Ok (Some key) ->
  fst (client.FindKeyByAppName env c (client.AppName key) w) = Ok (Some key).
Proof.
  rewrite GetKey_run, FindKeyByAppName_run.
  destruct (client.GetKeys env c w) as [[listed_|cause] w']; cbn [fst];
    [|discriminate].
  intros H Hnodup Hkey. injection H as ->. injection Hkey as Hkey.
  now rewrite (unique_name_scan _ _ Hnodup (scan_In _ _ _ Hkey)).
Qed.

End LookupExtras.

(** * Further properties of the managed resource *)

(** The scan of the specification's [GetKeyByAccessToken] is the loop of
    [GetKey]. *)
Lemma find_GetKey_scan (items : list client.APIKey) (token : string) :
  find (fun key => String.eqb (client.AccessToken key) token) items
  = client.GetKey_scan items token.
Proof.
  induction items as [|key rest IH]; simpl; [reflexivity|].
  destruct (String.eqb _ token); [reflexivity | exact IH].
Qed.

Lemma GetKey_scan_token (items : list client.APIKey) (token : string) (key : client.APIKey) :
  client.GetKey_scan items token = Some key -> client.AccessToken key = token.
Proof.
  induction items as [|k rest IH]; simpl; [discriminate|].
  destruct (String.eqb_spec (client.AccessToken k) token) as [E|_].
  - intros H. now injection H as <-.
  - exact IH.
Qed.

Lemma FindKeyByAppName_scan_name (items : list client.APIKey) (appName : string)
    (key : client.APIKey) :
  client.FindKeyByAppName_scan items appName = Some key -> client.AppName key = appName.
Proof.
  induction items as [|k rest IH]; simpl; [discriminate|].
  destruct (String.eqb_spec (client.AppName k) appName) as [E|_].
  - intros H. now injection H as <-.
  - exact IH.
Qed.

Lemma In_Append (ds new : diag.Diagnostics) (d : diag.Diagnostic) :
  In d ds -> In d (diag.Append ds new).
Proof.
  unfold diag.Append. revert ds. induction new as [|n new IH]; intros ds Hin; simpl.
  - exact Hin.
  - apply IH. destruct (diag.Contains ds n); [exact Hin|].
    apply in_or_app. now left.
Qed.

Section ResourceExtras.

Context {Server : Type} (env : client.Env Server).

Lemma GetKeyByAccessToken_run (c : client.Client) (token : string) (w : World Server) :
  client.GetKeyByAccessToken env c token w =
  match client.GetKeys env c w with
  | (Ok result, w') => (Ok (client.GetKey_scan (client.Items result) token), w')
  | (Err err, w') => (Err err, w')
  end.
Proof.
  unfold client.GetKeyByAccessToken, bind.
  destruct (client.GetKeys env c w) as [[result|err] w']; [|reflexivity].
  unfold ret. now rewrite find_GetKey_scan.
Qed.

(** What the resource's [Read] does, call by call. *)
Lemma resource_Read_run (r : api_key_resource.APIKeyResource)
    (req : api_key_resource_Read.ReadRequest) (resp : api_key_resource_Read.ReadResponse)
    (w : World Server) :
  api_key_resource_Read.Read env r req resp w =
  let resp1 :=
    api_key_resource_Read.Diagnostics_Append resp
      (fst (api_key_resource_Read.State_Get req)) in
  let token :=
    types.ValueString (api_key_resource.ID (snd (api_key_resource_Read.State_Get req))) in
  if diag.HasError (api_key_resource_Read.Diagnostics resp1) then (resp1, w)
  else
    match client.GetKeys env (api_key_resource.client r) w with
    | (Err err, w') =>
        (api_key_resource_Read.Diagnostics_AddError resp1 "Client Error"
           ("Unable to read API key: " +:+ err), w')
    | (Ok result, w') =>
        match client.GetKey_scan (client.Items result) token with
        | None => (api_key_resource_Read.State_RemoveResource resp1, w')
        | Some key => (api_key_resource_Read.State_Set resp1 (resource_state_of key), w')
        end
    end.
Proof.
  unfold api_key_resource_Read.Read.
  destruct (api_key_resource_Read.State_Get req) as [diags data].
  cbn [fst snd]. cbv beta iota zeta.
  destruct (diag.HasError _); [reflexivity|].
  unfold bind. rewrite GetKeyByAccessToken_run.
  destruct (client.GetKeys env _ w) as [[result|err] w']; [|reflexivity].
  destruct (client.GetKey_scan _ _); reflexivity.
Qed.

(** X8.  A refresh whose state is decoded without error follows the
    listing of the server.  When the listing fails, it reports an error and
    keeps the state.  When the listing has no key whose access token is the
    stored id, it removes the resource from the state and reports nothing.
    Otherwise it writes the state from the first such key, and the id and
    the access token it writes are the stored id. *)
Theorem Read_follows_the_listing (r : api_key_resource.APIKeyResource)
    (req : api_key_resource_Read.ReadRequest) (resp : api_key_resource_Read.ReadResponse)
    (w : World Server) :
  let resp1 :=
    api_key_resource_Read.Diagnostics_Append resp
      (fst (api_key_resource_Read.State_Get req)) in
  let token :=
    types.ValueString (api_key_resource.ID (snd (api_key_resource_Read.State_Get req))) in
  let outcome := fst (api_key_resource_Read.Read env r req resp w) in
  diag.HasError (api_key_resource_Read.Diagnostics resp1) = false ->
  snd (api_key_resource_Read.Read env r req resp w)
  = snd (client.GetKeys env (api_key_resource.client r) w)
  /\ match fst (client.GetKeys env (api_key_resource.client r) w) with
     | Err cause =>
         diag.HasError (api_key_resource_Read.Diagnostics outcome) = true
         /\ api_key_resource_Read.State outcome = api_key_resource_Read.State resp
     | Ok result =>
         api_key_resource_Read.Diagnostics outcome = api_key_resource_Read.Diagnostics resp1
         /\ ((Forall (fun key => client.AccessToken key <> token) (client.Items result)
              /\ api_key_resource_Read.State outcome = None)
             \/ exists key : client.APIKey,
                  first_match (fun k => client.AccessToken k = token)
                    (client.Items result) (Some key)
                  /\ api_key_resource_Read.State outcome
                     = Some {| api_key_resource.ID := types.StringValue token;
                               api_key_resource.AppName :=
                                 types.StringValue (client.AppName key);
                               api_key_resource.AccessToken := types.StringValue token;
                               api_key_resource.DateCreated :=
                                 types.StringValue (client.DateCreated key) |})
     end.
Proof.
  cbv zeta. intros Hstate. rewrite resource_Read_run. cbv zeta. rewrite Hstate.
  destruct (client.GetKeys env _ w) as [[result|cause] w']; cbn [fst snd].
  - pose proof (GetKey_scan_first_match (client.Items result)
                  (types.ValueString
                     (api_key_resource.ID (snd (api_key_resource_Read.State_Get req)))))
      as Hscan.
    destruct (client.GetKey_scan _ _) as [key|] eqn:E; cbn [fst snd].
    + split; [reflexivity|]. split; [reflexivity|]. right. exists key.
      split; [exact Hscan|].
      apply GetKey_scan_token in E. unfold resource_state_of. now rewrite E.
    + split; [reflexivity|]. split; [reflexivity|]. left. split; [exact Hscan|reflexivity].
  - split; [reflexivity|]. split; [apply HasError_AddError | reflexivity].
Qed.

(** X9.  A refresh is idempotent: the state that a refresh writes is
    written again, unchanged, by a refresh of that state against the same
    listing. *)
Theorem Read_is_idempotent (r : api_key_resource.APIKeyResource)
    (req : api_key_resource_Read.ReadRequest) (resp resp' : api_key_resource_Read.ReadResponse)
    (w w' : World Server) (result result' : client.APIKeyQueryResult)
    (m : api_key_resource.APIKeyResourceModel) :
  diag.HasError
    (api_key_resource_Read.Diagnostics
       (api_key_resource_Read.Diagnostics_Append resp
          (fst (api_key_resource_Read.State_Get req)))) = false ->
  diag.HasError (api_key_resource_Read.Diagnostics resp') = false ->
  fst (client.GetKeys env (api_key_resource.client r) w) = Ok result ->
  fst (client.GetKeys env (api_key_resource.client r) w') = Ok result' ->
  client.Items result' = client.Items result ->
  api_key_resource_Read.State (fst (api_key_resource_Read.Read env r req resp w)) = Some m ->
  api_key_resource_Read.State
    (fst (api_key_resource_Read.Read env r
            {| api_key_resource_Read.State_Get := ([], m) |} resp' w'))
  = Some m.
Proof.
  intros Hstate Hresp' Hlist Hlist' Hitems. rewrite !resource_Read_run. cbv zeta.
  cbn [fst snd api_key_resource_Read.State_Get].
  change (diag.HasError
            (api_key_resource_Read.Diagnostics
               (api_key_resource_Read.Diagnostics_Append resp' [])))
    with (diag.HasError (api_key_resource_Read.Diagnostics resp')).
  rewrite Hresp', Hstate.
  destruct (client.GetKeys env _ w) as [[listed_|cause] w1]; cbn [fst] in Hlist;
    [|discriminate].
  injection Hlist as ->.
  destruct (client.GetKeys env _ w') as [[listed_|cause] w1']; cbn [fst] in Hlist';
    [|discriminate].
  injection Hlist' as ->. rewrite Hitems.
  destruct (client.GetKey_scan (client.Items result) _) as [key|] eqn:E; cbn [fst];
    [|discriminate].
  intros H. injection H as <-. cbn [resource_state_of api_key_resource.ID types.ValueString].
  pose proof (GetKey_scan_token _ _ _ E) as Htoken.
  rewrite Htoken, E. reflexivity.
Qed.

End ResourceExtras.

Lemma unique_token_scan (items : list client.APIKey) (key : client.APIKey) :
  NoDup (List.map client.AccessToken items) -> In key items ->
  client.GetKey_scan items (client.AccessToken key) = Some key.
Proof.
  induction items as [|k rest IH]; simpl; [contradiction|].
  intros Hnodup Hin. apply NoDup_cons in Hnodup as [Hk Hrest].
  destruct Hin as [->|Hin].
  - now rewrite String.eqb_refl.
  - destruct (String.eqb_spec (client.AccessToken k) (client.AccessToken key)) as [E|_].
    + exfalso. apply Hk. rewrite E. apply list_elem_of_In, List.in_map, Hin.
    + now apply IH.
Qed.

Lemma Create_scan_In (existingIDs : gmap Z bool) (items : list client.APIKey)
    (appName : string) (key : client.APIKey) :
  api_key_resource.Create_scan existingIDs items appName = Some key ->
  In key items /\ client.AppName key = appName.
Proof.
  induction items as [|k rest IH]; simpl; [discriminate|].
  destruct (negb _ && String.eqb (client.AppName k) appName) eqn:E.
  - intros H. injection H as <-. apply andb_true_iff in E as [_ E].
    apply String.eqb_eq in E. split; [now left | exact E].
  - intros H. destruct (IH H) as [Hin Hname]. split; [now right | exact Hname].
Qed.

Section LifecycleExtras.

Context {Server : Type} (env : client.Env Server).

(** X10.  Refreshing right after a successful creation changes nothing:
    when the plan names the app, [Create] ends without error, and the next
    listing shows the keys that [Create] saw after the creation, with
    pairwise different access tokens, then [Read] of the state that [Create]
    wrote writes that very state. *)
Theorem refresh_after_create_is_stable
    (r : api_key_resource.APIKeyResource) (req : api_key_resource.CreateRequest)
    (resp : api_key_resource.CreateResponse) (w w1 w2 w3 w4 : World Server)
    (existingKeys newKeys relisted : client.APIKeyQueryResult) (name : string)
    (resp0 : api_key_resource_Read.ReadResponse) :
  api_key_resource.AppName (snd (api_key_resource.Plan_Get req)) = types.StringValue name ->
  client.GetKeys env (api_key_resource.client r) w = (Ok existingKeys, w1) ->
  client.CreateKey env (api_key_resource.client r) name w1 = (None, w2) ->
  client.GetKeys env (api_key_resource.client r) w2 = (Ok newKeys, w3) ->
  diag.HasError
    (api_key_resource.Diagnostics (fst (api_key_resource.Create env r req resp w))) = false ->
  NoDup (List.map client.AccessToken (client.Items newKeys)) ->
  fst (client.GetKeys env (api_key_resource.client r) w4) = Ok relisted ->
  client.Items relisted = client.Items newKeys ->
  diag.HasError (api_key_resource_Read.Diagnostics resp0) = false ->
  exists m : api_key_resource.APIKeyResourceModel,
    api_key_resource.State (fst (api_key_resource.Create env r req resp w)) = Some m
    /\ api_key_resource_Read.State
         (fst (api_key_resource_Read.Read env r
                 {| api_key_resource_Read.State_Get := ([], m) |} resp0 w4))
       = Some m.
Proof.
  intros Hname Hlist Hcreate Hrelist. rewrite Create_run. cbv zeta.
  rewrite Hname. cbn [types.ValueString]. rewrite Hlist, Hcreate, Hrelist.
  destruct (diag.HasError
              (api_key_resource.Diagnostics
                 (api_key_resource.Diagnostics_Append resp
                    (fst (api_key_resource.Plan_Get req))))) eqn:Hplan.
  { cbn [fst]. rewrite Hplan. discriminate. }
  destruct (api_key_resource.Create_scan _ _ name) as [key|] eqn:Hscan; cbn [fst].
  2:{ unfold api_key_resource.Diagnostics_AddError. cbn [api_key_resource.Diagnostics].
      rewrite HasError_AddError. discriminate. }
  intros _ Hnodup Hlist4 Hitems Hresp0.
  destruct (Create_scan_In _ _ _ _ Hscan) as [Hin Hkey].
  eexists. split; [reflexivity|].
  rewrite resource_Read_run. cbv zeta.
  cbn [fst snd api_key_resource_Read.State_Get api_key_resource.ID types.ValueString].
  change (diag.HasError
            (api_key_resource_Read.Diagnostics
               (api_key_resource_Read.Diagnostics_Append resp0 [])))
    with (diag.HasError (api_key_resource_Read.Diagnostics resp0)).
  rewrite Hresp0.
  destruct (client.GetKeys env _ w4) as [[listed_|cause] w5]; cbn [fst] in Hlist4;
    [|discriminate].
  injection Hlist4 as ->. rewrite Hitems, (unique_token_scan _ _ Hnodup Hin).
  cbn [fst api_key_resource_Read.State_Set api_key_resource_Read.Diagnostics_Append
         api_key_resource_Read.State].
  unfold resource_state_of. now rewrite Hkey.
Qed.

Lemma resource_Delete_run (r : api_key_resource.APIKeyResource)
    (req : api_key_resource_Delete.DeleteRequest)
    (resp : api_key_resource_Delete.DeleteResponse) (w : World Server) :
  api_key_resource_Delete.Delete env r req resp w =
  let resp1 :=
    api_key_resource_Delete.Diagnostics_Append resp
      (fst (api_key_resource_Delete.State_Get req)) in
  let token :=
    types.ValueString
      (api_key_resource.AccessToken (snd (api_key_resource_Delete.State_Get req))) in
  if diag.HasError (api_key_resource_Delete.Diagnostics resp1) then (resp1, w)
  else
    match client.DeleteKey env (api_key_resource.client r) token w with
    | (Some err, w') =>
        (api_key_resource_Delete.Diagnostics_AddError resp1 "Client Error"
           ("Unable to delete API key: " +:+ err), w')
    | (None, w') => (resp1, w')
    end.
Proof.
  unfold api_key_resource_Delete.Delete.
  destruct (api_key_resource_Delete.State_Get req) as [diags data].
  cbn [fst snd]. cbv beta iota zeta.
  destruct (diag.HasError _); [reflexivity|].
  unfold bind.
  destruct (client.DeleteKey env _ _ w) as [[err|] w']; reflexivity.
Qed.

(** X11.  A destroy whose state is decoded without error deletes the key
    named by the [access_token] attribute of the state (not by its id): it
    issues the requests of that one [DELETE], never touches the state, and,
    when the transport answers, ends without error exactly when the status
    of the answer is 200 or 204. *)
Theorem Delete_targets_the_access_token (r : api_key_resource.APIKeyResource)
    (req : api_key_resource_Delete.DeleteRequest)
    (resp : api_key_resource_Delete.DeleteResponse) (w : World Server) :
  let resp1 :=
    api_key_resource_Delete.Diagnostics_Append resp
      (fst (api_key_resource_Delete.State_Get req)) in
  let token :=
    types.ValueString
      (api_key_resource.AccessToken (snd (api_key_resource_Delete.State_Get req))) in
  let outcome := api_key_resource_Delete.Delete env r req resp w in
  diag.HasError (api_key_resource_Delete.Diagnostics resp1) = false ->
  api_key_resource_Delete.State (fst outcome) = api_key_resource_Delete.State resp
  /\ issues w (snd outcome)
       (doRequest_requests env (api_key_resource.client r) MethodDelete
          ("/Auth/Keys/" +:+ url.PathEscape token))
  /\ forall answer : Response,
       fst (client.doRequest env (api_key_resource.client r) MethodDelete
              ("/Auth/Keys/" +:+ url.PathEscape token) w) = Ok answer ->
       (diag.HasError (api_key_resource_Delete.Diagnostics (fst outcome)) = false
        <-> StatusCode answer = 200 \/ StatusCode answer = 204).
Proof.
  cbv zeta. intros Hstate. rewrite resource_Delete_run. cbv zeta. rewrite Hstate.
  set (token := types.ValueString
                  (api_key_resource.AccessToken (snd (api_key_resource_Delete.State_Get req)))).
  pose proof (operation_issues env (api_key_resource.client r) (OpDeleteKey token) w)
    as Hissues.
  cbn [operation_world operation_method operation_path] in Hissues.
  unfold delete_path in Hissues.
  rewrite DeleteKey_run in *. unfold delete_path.
  destruct (client.doRequest env _ MethodDelete _ w) as [[answer|cause] w'];
    cbn [fst snd] in *.
  - destruct (negb _ && negb _) eqn:E; cbn [fst snd].
    + split; [reflexivity|]. split; [exact Hissues|].
      intros answer' H. injection H as <-. split.
      * unfold api_key_resource_Delete.Diagnostics_AddError.
        cbn [api_key_resource_Delete.Diagnostics]. rewrite HasError_AddError. discriminate.
      * intros Hst. apply status_check in Hst. congruence.
    + split; [reflexivity|]. split; [exact Hissues|].
      intros answer' H. injection H as <-. split.
      * intros _. now apply status_check.
      * intros _. exact Hstate.
  - split; [reflexivity|]. split; [exact Hissues|]. intros answer H. discriminate H.
Qed.

(** X13.  No key is created unless the keys could be listed first: when
    the plan is not decoded, or the listing before the creation fails,
    [Create] has sent no request other than that [GET]; in particular it has
    sent no [POST]. *)
Theorem no_creation_after_a_failed_listing
    (r : api_key_resource.APIKeyResource) (req : api_key_resource.CreateRequest)
    (resp : api_key_resource.CreateResponse) (w : World Server) (reqs : list Request) :
  diag.HasError
    (api_key_resource.Diagnostics
       (api_key_resource.Diagnostics_Append resp (fst (api_key_resource.Plan_Get req))))
  = true
  \/ is_Err (fst (client.GetKeys env (api_key_resource.client r) w)) ->
  issues w (snd (api_key_resource.Create env r req resp w)) reqs ->
  Forall (fun q => Method_ q = MethodGet) reqs /\ (List.length reqs <= 1)%nat.
Proof.
  intros Hfail. rewrite Create_run. cbv zeta.
  destruct (diag.HasError _) eqn:Hplan.
  - cbn [snd]. unfold issues. intros H.
    rewrite <- (app_nil_r (wire w)) in H at 1. apply app_inv_head in H. subst.
    split; [constructor | simpl; lia].
  - destruct Hfail as [Hfail|Hfail]; [discriminate|].
    pose proof (operation_issues env (api_key_resource.client r) OpGetKeys w) as Hissues.
    cbn [operation_world operation_method operation_path] in Hissues.
    destruct (client.GetKeys env _ w) as [[existingKeys|cause] w1]; cbn [fst] in Hfail;
      [contradiction|].
    cbn [snd] in *. unfold issues in *. intros H. rewrite Hissues in H.
    apply app_inv_head in H. subst. unfold doRequest_requests.
    destruct (client.url_error env _); split;
      try (repeat constructor); simpl; lia.
Qed.

End LifecycleExtras.

(** * Further properties of the data source *)

Section DataSourceExtras.

Context {Server : Type} (env : client.Env Server).

(** What the data-source [Read] does once its configuration is decoded and
    names an attribute. *)
Lemma data_source_Read_run (d : api_key_data_source.APIKeyDataSource)
    (req : api_key_data_source.ReadRequest) (resp : api_key_data_source.ReadResponse)
    (w : World Server) :
  let data := snd (api_key_data_source.Config_Get req) in
  let resp1 :=
    api_key_data_source.Diagnostics_Append resp (fst (api_key_data_source.Config_Get req)) in
  diag.HasError (api_key_data_source.Diagnostics resp1) = false ->
  api_key_data_source.hasAppName data || api_key_data_source.hasAccessToken data = true ->
  api_key_data_source.Read env d req resp w =
  match client.GetKeys env (api_key_data_source.client d) w with
  | (Err err, w') =>
      (api_key_data_source.Diagnostics_AddError resp1 "Client Error"
         ("Unable to read API key: " +:+ err), w')
  | (Ok result, w') =>
      match
        (if api_key_data_source.hasAccessToken data
         then client.GetKey_scan (client.Items result)
                (types.ValueString (api_key_data_source.AccessToken data))
         else client.FindKeyByAppName_scan (client.Items result)
                (types.ValueString (api_key_data_source.AppName data)))
      with
      | None =>
          (api_key_data_source.Diagnostics_AddError resp1 "API Key Not Found"
             "The specified API key was not found.", w')
      | Some key =>
          (api_key_data_source.State_Set resp1
             {| api_key_data_source.ID := types.StringValue (client.AccessToken key);
                api_key_data_source.AppName := types.StringValue (client.AppName key);
                api_key_data_source.AccessToken := types.StringValue (client.AccessToken key);
                api_key_data_source.DateCreated :=
                  types.StringValue (client.DateCreated key) |}, w')
      end
  end.
Proof.
  cbv zeta. intros Hconfig Hattr. unfold api_key_data_source.Read.
  destruct (api_key_data_source.Config_Get req) as [diags data].
  cbn [fst snd] in *. cbv beta iota zeta. rewrite Hconfig.
  replace (negb (api_key_data_source.hasAppName data)
           && negb (api_key_data_source.hasAccessToken data)) with false
    by (rewrite <- negb_orb, Hattr; reflexivity).
  unfold bind.
  destruct (api_key_data_source.hasAccessToken data).
  - rewrite GetKeyByAccessToken_run.
    destruct (client.GetKeys env _ w) as [[result|err] w']; [|reflexivity].
    destruct (client.GetKey_scan _ _); reflexivity.
  - rewrite FindKeyByAppName_run.
    destruct (client.GetKeys env _ w) as [[result|err] w']; [|reflexivity].
    destruct (client.FindKeyByAppName_scan _ _); reflexivity.
Qed.

(** X14.  The data source answers the question it was asked: when a read
    that starts without state writes a state, the access token of that state
    is the access token of the query when the query has one, and its app
    name is the app name of the query otherwise. *)
Theorem Read_answers_the_query (d : api_key_data_source.APIKeyDataSource)
    (req : api_key_data_source.ReadRequest) (resp : api_key_data_source.ReadResponse)
    (w : World Server) (m : api_key_data_source.APIKeyDataSourceModel) :
  let data := snd (api_key_data_source.Config_Get req) in
  api_key_data_source.State resp = None ->
  api_key_data_source.State (fst (api_key_data_source.Read env d req resp w)) = Some m ->
  (api_key_data_source.hasAccessToken data = true ->
     api_key_data_source.AccessToken m = api_key_data_source.AccessToken data)
  /\ (api_key_data_source.hasAccessToken data = false ->
      api_key_data_source.AppName m = api_key_data_source.AppName data).
Proof.
  cbv zeta. intros Hnone Hm.
  destruct (diag.HasError
              (api_key_data_source.Diagnostics
                 (api_key_data_source.Diagnostics_Append resp
                    (fst (api_key_data_source.Config_Get req))))) eqn:Hconfig.
  { unfold api_key_data_source.Read in Hm.
    destruct (api_key_data_source.Config_Get req) as [diags data].
    cbn [fst snd] in *. cbv beta iota zeta in Hm. rewrite Hconfig in Hm.
    cbn in Hm. congruence. }
  destruct (api_key_data_source.hasAppName (snd (api_key_data_source.Config_Get req))
            || api_key_data_source.hasAccessToken (snd (api_key_data_source.Config_Get req)))
    eqn:Hattr.
  2:{ apply orb_false_iff in Hattr as [Hname Htoken].
      unfold api_key_data_source.Read in Hm.
      destruct (api_key_data_source.Config_Get req) as [diags data].
      cbn [fst snd] in *. cbv beta iota zeta in Hm.
      rewrite Hconfig, Hname, Htoken in Hm. cbn in Hm. congruence. }
  rewrite (data_source_Read_run d req resp w Hconfig Hattr) in Hm.
  destruct (client.GetKeys env _ w) as [[result|err] w'];
    [|cbn in Hm; congruence].
  destruct (api_key_data_source.hasAccessToken (snd (api_key_data_source.Config_Get req)))
    eqn:Htoken.
  - destruct (client.GetKey_scan _ _) as [key|] eqn:E; [|cbn in Hm; congruence].
    cbn in Hm. injection Hm as <-. split; [intros _|discriminate].
    apply GetKey_scan_token in E. cbn. rewrite E.
    unfold api_key_data_source.hasAccessToken in Htoken.
    destruct (api_key_data_source.AccessToken _); try discriminate. reflexivity.
  - rewrite orb_false_r in Hattr.
    destruct (client.FindKeyByAppName_scan _ _) as [key|] eqn:E; [|cbn in Hm; congruence].
    cbn in Hm. injection Hm as <-. split; [discriminate|intros _].
    apply FindKeyByAppName_scan_name in E. cbn. rewrite E.
    unfold api_key_data_source.hasAppName in Hattr.
    destruct (api_key_data_source.AppName _); try discriminate. reflexivity.
Qed.

(** X15.  For the data source a missing key is an error, not an absence:
    when the configuration names an attribute, the listing succeeds and no
    listed key has the access token of the query (or, for a query without
    access token, its app name), the read adds the error
    [API Key Not Found] and writes no state. *)
Theorem Read_of_a_missing_key_is_an_error (d : api_key_data_source.APIKeyDataSource)
    (req : api_key_data_source.ReadRequest) (resp : api_key_data_source.ReadResponse)
    (w : World Server) (result : client.APIKeyQueryResult) :
  let data := snd (api_key_data_source.Config_Get req) in
  let resp1 :=
    api_key_data_source.Diagnostics_Append resp (fst (api_key_data_source.Config_Get req)) in
  let outcome := fst (api_key_data_source.Read env d req resp w) in
  diag.HasError (api_key_data_source.Diagnostics resp1) = false ->
  api_key_data_source.hasAppName data || api_key_data_source.hasAccessToken data = true ->
  fst (client.GetKeys env (api_key_data_source.client d) w) = Ok result ->
  Forall
    (fun key =>
       if api_key_data_source.hasAccessToken data
       then client.AccessToken key
            <> types.ValueString (api_key_data_source.AccessToken data)
       else client.AppName key <> types.ValueString (api_key_data_source.AppName data))
    (client.Items result) ->
  In (error_diagnostic "API Key Not Found" "The specified API key was not found.")
    (api_key_data_source.Diagnostics outcome)
  /\ diag.HasError (api_key_data_source.Diagnostics outcome) = true
  /\ api_key_data_source.State outcome = api_key_data_source.State resp.
Proof.
  cbv zeta. intros Hconfig Hattr Hlist Hnone.
  rewrite (data_source_Read_run d req resp w Hconfig Hattr).
  destruct (client.GetKeys env _ w) as [[listed_|err] w']; cbn [fst] in Hlist;
    [|discriminate].
  injection Hlist as ->.
  assert (Hscan :
            (if api_key_data_source.hasAccessToken (snd (api_key_data_source.Config_Get req))
             then client.GetKey_scan (client.Items result)
                    (types.ValueString
                       (api_key_data_source.AccessToken
                          (snd (api_key_data_source.Config_Get req))))
             else client.FindKeyByAppName_scan (client.Items result)
                    (types.ValueString
                       (api_key_data_source.AppName
                          (snd (api_key_data_source.Config_Get req))))) = None).
  { destruct (api_key_data_source.hasAccessToken _).
    - pose proof (GetKey_scan_first_match (client.Items result)
                    (types.ValueString
                       (api_key_data_source.AccessToken
                          (snd (api_key_data_source.Config_Get req))))) as H.
      destruct (client.GetKey_scan _ _) as [key|]; [|reflexivity].
      destruct H as (before & after & Hitems & Hkey & _).
      rewrite Hitems in Hnone. apply Forall_app in Hnone as [_ Hnone].
      inversion Hnone; subst. contradiction.
    - pose proof (FindKeyByAppName_scan_first_match (client.Items result)
                    (types.ValueString
                       (api_key_data_source.AppName
                          (snd (api_key_data_source.Config_Get req))))) as H.
      destruct (client.FindKeyByAppName_scan _ _) as [key|]; [|reflexivity].
      destruct H as (before & after & Hitems & Hkey & _).
      rewrite Hitems in Hnone. apply Forall_app in Hnone as [_ Hnone].
      inversion Hnone; subst. contradiction. }
  rewrite Hscan. cbn [fst].
  split; [apply In_AddError|]. split; [apply HasError_AddError | reflexivity].
Qed.

End DataSourceExtras.

(** * Further properties of the provider *)

Lemma require_keeps (resp : provider.ConfigureResponse) (v summary detail : string) :
  provider.DataSourceData (provider.require resp v summary detail)
  = provider.DataSourceData resp
  /\ provider.ResourceData (provider.require resp v summary detail)
     = provider.ResourceData resp
  /\ (forall d, In d (provider.Diagnostics resp) ->
                In d (provider.Diagnostics (provider.require resp v summary detail)))
  /\ (v = "" ->
      In (error_diagnostic summary detail)
        (provider.Diagnostics (provider.require resp v summary detail)))
  /\ (v <> "" -> provider.require resp v summary detail = resp).
Proof.
  unfold provider.require.
  destruct (String.eqb_spec v "") as [E|E].
  - unfold provider.Diagnostics_AddError.
    cbn [provider.DataSourceData provider.ResourceData provider.Diagnostics].
    split; [reflexivity|]. split; [reflexivity|]. split; [|split].
    + intros d Hd. unfold diag.AddError. now apply In_Append.
    + intros _. apply In_AddError.
    + contradiction.
  - split; [reflexivity|]. split; [reflexivity|]. split; [tauto|]. split; [contradiction|].
    reflexivity.
Qed.

Lemma HasError_In (ds : diag.Diagnostics) (summary detail : string) :
  In (error_diagnostic summary detail) ds -> diag.HasError ds = true.
Proof.
  intros H. unfold diag.HasError. apply existsb_exists.
  now exists (error_diagnostic summary detail).
Qed.

Section ProviderExtras.

Context {Server : Type} (env : client.Env Server) (Getenv : string -> string).

(** What [Configure] does, step by step. *)
Lemma provider_Configure_run (req : provider.ConfigureRequest)
    (resp : provider.ConfigureResponse) (w : World Server) :
  provider.Configure env Getenv req resp w =
  let data := snd (provider.Config_Get req) in
  let resp1 := provider.Diagnostics_Append resp (fst (provider.Config_Get req)) in
  let endpoint :=
    provider.from_config_or_env Getenv (provider.Endpoint data) "JELLYFIN_ENDPOINT" in
  let username :=
    provider.from_config_or_env Getenv (provider.Username data) "JELLYFIN_USERNAME" in
  let password :=
    provider.from_config_or_env Getenv (provider.Password data) "JELLYFIN_PASSWORD" in
  let resp2 :=
    provider.require
      (provider.require
         (provider.require resp1 endpoint "Missing Jellyfin Endpoint"
            provider.missing_endpoint_detail)
         username "Missing Jellyfin Username" provider.missing_username_detail)
      password "Missing Jellyfin Password" provider.missing_password_detail in
  if diag.HasError (provider.Diagnostics resp1) then (resp1, w)
  else if diag.HasError (provider.Diagnostics resp2) then (resp2, w)
  else
    match client.NewClientWithAuth env endpoint username password w with
    | (Err err, w') =>
        (provider.Diagnostics_AddError resp2 "Failed to Authenticate with Jellyfin"
           (provider.authentication_failed_detail err), w')
    | (Ok jellyfinClient, w') =>
        ({| provider.Diagnostics := provider.Diagnostics resp2;
            provider.DataSourceData := framework.AnyClient (Some jellyfinClient);
            provider.ResourceData := framework.AnyClient (Some jellyfinClient) |}, w')
    end.
Proof.
  unfold provider.Configure.
  destruct (provider.Config_Get req) as [diags data]. cbn [fst snd]. cbv beta iota zeta.
  destruct (diag.HasError _); [reflexivity|].
  destruct (diag.HasError _); [reflexivity|].
  unfold bind.
  destruct (client.NewClientWithAuth env _ _ _ w) as [[c|err] w']; reflexivity.
Qed.

(** X16.  The provider does not contact the server without an endpoint, a
    user name and a password: when, after the fall-back to the environment,
    one of the three is empty, [Configure] sends nothing, hands no client to
    the resources and data sources, and reports every value that is missing,
    not only the first. *)
Theorem Configure_reports_every_missing_value (req : provider.ConfigureRequest)
    (resp : provider.ConfigureResponse) (w : World Server) :
  let data := snd (provider.Config_Get req) in
  let resp1 := provider.Diagnostics_Append resp (fst (provider.Config_Get req)) in
  let endpoint :=
    provider.from_config_or_env Getenv (provider.Endpoint data) "JELLYFIN_ENDPOINT" in
  let username :=
    provider.from_config_or_env Getenv (provider.Username data) "JELLYFIN_USERNAME" in
  let password :=
    provider.from_config_or_env Getenv (provider.Password data) "JELLYFIN_PASSWORD" in
  let outcome := fst (provider.Configure env Getenv req resp w) in
  diag.HasError (provider.Diagnostics resp1) = false ->
  endpoint = "" \/ username = "" \/ password = "" ->
  snd (provider.Configure env Getenv req resp w) = w
  /\ diag.HasError (provider.Diagnostics outcome) = true
  /\ provider.DataSourceData outcome = provider.DataSourceData resp
  /\ provider.ResourceData outcome = provider.ResourceData resp
  /\ (endpoint = "" ->
      In (error_diagnostic "Missing Jellyfin Endpoint" provider.missing_endpoint_detail)
        (provider.Diagnostics outcome))
  /\ (username = "" ->
      In (error_diagnostic "Missing Jellyfin Username" provider.missing_username_detail)
        (provider.Diagnostics outcome))
  /\ (password = "" ->
      In (error_diagnostic "Missing Jellyfin Password" provider.missing_password_detail)
        (provider.Diagnostics outcome)).
Proof.
  cbv zeta. intros Hconfig Hmissing. rewrite provider_Configure_run. cbv zeta.
  rewrite Hconfig.
  set (resp1 := provider.Diagnostics_Append resp (fst (provider.Config_Get req))).
  set (e := provider.from_config_or_env Getenv _ "JELLYFIN_ENDPOINT") in *.
  set (u := provider.from_config_or_env Getenv _ "JELLYFIN_USERNAME") in *.
  set (p := provider.from_config_or_env Getenv _ "JELLYFIN_PASSWORD") in *.
  set (ra := provider.require resp1 e "Missing Jellyfin Endpoint"
               provider.missing_endpoint_detail).
  set (rb := provider.require ra u "Missing Jellyfin Username"
               provider.missing_username_detail).
  set (rc := provider.require rb p "Missing Jellyfin Password"
               provider.missing_password_detail).
  destruct (require_keeps resp1 e "Missing Jellyfin Endpoint"
              provider.missing_endpoint_detail) as (Da & Ra & Ia & Ea & _).
  destruct (require_keeps ra u "Missing Jellyfin Username"
              provider.missing_username_detail) as (Db & Rb & Ib & Eb & _).
  destruct (require_keeps rb p "Missing Jellyfin Password"
              provider.missing_password_detail) as (Dc & Rc & Ic & Ec & _).
  fold ra in Da, Ra, Ia, Ea, Db, Rb, Ib, Eb. fold rb in Db, Rb, Ib, Eb, Dc, Rc, Ic, Ec.
  fold rc in Dc, Rc, Ic, Ec.
  assert (Hend : e = "" ->
            In (error_diagnostic "Missing Jellyfin Endpoint" provider.missing_endpoint_detail)
              (provider.Diagnostics rc)) by (intros H; apply Ic, Ib, Ea, H).
  assert (Huser : u = "" ->
            In (error_diagnostic "Missing Jellyfin Username" provider.missing_username_detail)
              (provider.Diagnostics rc)) by (intros H; apply Ic, Eb, H).
  assert (Herr : diag.HasError (provider.Diagnostics rc) = true).
  { destruct Hmissing as [H|[H|H]]; eapply HasError_In; eauto. }
  rewrite Herr. cbn [fst snd].
  split; [reflexivity|]. split; [exact Herr|].
  split; [now rewrite Dc, Db, Da|]. split; [now rewrite Rc, Rb, Ra|].
  split; [exact Hend|]. split; [exact Huser | exact Ec].
Qed.

(** X17.  Values of the configuration take precedence over the
    environment: when the endpoint, the user name and the password of the
    configuration are all non-empty, [Configure] does the same whatever the
    environment variables are. *)
Theorem configuration_takes_precedence (Getenv' : string -> string)
    (req : provider.ConfigureRequest) (resp : provider.ConfigureResponse) (w : World Server) :
  let data := snd (provider.Config_Get req) in
  types.ValueString (provider.Endpoint data) <> "" ->
  types.ValueString (provider.Username data) <> "" ->
  types.ValueString (provider.Password data) <> "" ->
  provider.Configure env Getenv req resp w = provider.Configure env Getenv' req resp w.
Proof.
  cbv zeta. intros He Hu Hp. unfold provider.Configure.
  destruct (provider.Config_Get req) as [diags data]. cbn [snd] in *.
  unfold provider.from_config_or_env. cbv zeta.
  apply String.eqb_neq in He, Hu, Hp. rewrite He, Hu, Hp. reflexivity.
Qed.

(** X18.  A configuration that ends without error has authenticated, and
    the resource and the data source are handed the client of that
    authentication: [Configure] of either accepts the provider data without
    a diagnostic and ends with that client. *)
Theorem configured_client_reaches_the_callbacks (req : provider.ConfigureRequest)
    (resp : provider.ConfigureResponse) (w : World Server)
    (r_client d_client : option client.Client)
    (rresp : api_key_resource_Configure.ConfigureResponse)
    (dresp : api_key_data_source_Configure.ConfigureResponse) :
  let data := snd (provider.Config_Get req) in
  let endpoint :=
    provider.from_config_or_env Getenv (provider.Endpoint data) "JELLYFIN_ENDPOINT" in
  let username :=
    provider.from_config_or_env Getenv (provider.Username data) "JELLYFIN_USERNAME" in
  let password :=
    provider.from_config_or_env Getenv (provider.Password data) "JELLYFIN_PASSWORD" in
  let outcome := fst (provider.Configure env Getenv req resp w) in
  diag.HasError (provider.Diagnostics outcome) = false ->
  exists c : client.Client,
    fst (client.NewClientWithAuth env endpoint username password w) = Ok c
    /\ endpoint <> "" /\ username <> "" /\ password <> ""
    /\ api_key_resource_Configure.Configure r_client
         {| api_key_resource_Configure.ProviderData := provider.ResourceData outcome |} rresp
       = (Some c, rresp)
    /\ api_key_data_source_Configure.Configure d_client
         {| api_key_data_source_Configure.ProviderData := provider.DataSourceData outcome |}
         dresp
       = (Some c, dresp).
Proof.
  cbv zeta. rewrite provider_Configure_run. cbv zeta.
  set (resp1 := provider.Diagnostics_Append resp (fst (provider.Config_Get req))).
  set (e := provider.from_config_or_env Getenv _ "JELLYFIN_ENDPOINT") in *.
  set (u := provider.from_config_or_env Getenv _ "JELLYFIN_USERNAME") in *.
  set (p := provider.from_config_or_env Getenv _ "JELLYFIN_PASSWORD") in *.
  destruct (diag.HasError (provider.Diagnostics resp1)) eqn:H1.
  { cbn [fst]. rewrite H1. discriminate. }
  set (ra := provider.require resp1 e "Missing Jellyfin Endpoint"
               provider.missing_endpoint_detail).
  set (rb := provider.require ra u "Missing Jellyfin Username"
               provider.missing_username_detail).
  set (rc := provider.require rb p "Missing Jellyfin Password"
               provider.missing_password_detail).
  destruct (diag.HasError (provider.Diagnostics rc)) eqn:H2.
  { cbn [fst]. rewrite H2. discriminate. }
  destruct (require_keeps resp1 e "Missing Jellyfin Endpoint"
              provider.missing_endpoint_detail) as (_ & _ & _ & Ea & _).
  destruct (require_keeps ra u "Missing Jellyfin Username"
              provider.missing_username_detail) as (_ & _ & Ib & Eb & _).
  destruct (require_keeps rb p "Missing Jellyfin Password"
              provider.missing_password_detail) as (_ & _ & Ic & Ec & _).
  fold ra in Ea, Ib, Eb. fold rb in Ib, Eb, Ic, Ec. fold rc in Ic, Ec.
  assert (He : e <> "").
  { intros H. apply Ea, Ib, Ic, HasError_In in H. congruence. }
  assert (Hu : u <> "").
  { intros H. apply Eb, Ic, HasError_In in H. congruence. }
  assert (Hp : p <> "").
  { intros H. apply Ec, HasError_In in H. congruence. }
  destruct (client.NewClientWithAuth env e u p w) as [[c|err] w']; cbn [fst].
  - intros _. exists c. repeat split; assumption.
  - unfold provider.Diagnostics_AddError. cbn [provider.Diagnostics].
    rewrite HasError_AddError. discriminate.
Qed.

End ProviderExtras.

(** * The identity of a written state *)

Section StateExtras.

Context {Server : Type} (env : client.Env Server).

(** X12.  Every state that [Create], the resource's [Read] or the data
    source's [Read] writes has its id equal to its access token: a state
    that comes out of one of them either was there before or has [id] and
    [access_token] the same known value. *)
Theorem written_state_identifies_by_access_token :
  (forall r req resp (w : World Server) m,
      api_key_resource.State (fst (api_key_resource.Create env r req resp w)) = Some m ->
      api_key_resource.State resp = Some m
      \/ exists token, api_key_resource.ID m = types.StringValue token
                       /\ api_key_resource.AccessToken m = types.StringValue token)
  /\ (forall r req resp (w : World Server) m,
        api_key_resource_Read.State (fst (api_key_resource_Read.Read env r req resp w))
        = Some m ->
        api_key_resource_Read.State resp = Some m
        \/ exists token, api_key_resource.ID m = types.StringValue token
                         /\ api_key_resource.AccessToken m = types.StringValue token)
  /\ (forall d req resp (w : World Server) m,
        api_key_data_source.State (fst (api_key_data_source.Read env d req resp w))
        = Some m ->
        api_key_data_source.State resp = Some m
        \/ exists token, api_key_data_source.ID m = types.StringValue token
                         /\ api_key_data_source.AccessToken m = types.StringValue token).
Proof.
  split; [|split].
  - intros r req resp w m. rewrite Create_run. cbv zeta.
    destruct (diag.HasError _); [now left|].
    destruct (client.GetKeys env _ w) as [[existingKeys|err] w1]; [|now left].
    destruct (client.CreateKey env _ _ w1) as [[err|] w2]; [now left|].
    destruct (client.GetKeys env _ w2) as [[newKeys|err] w3]; [|now left].
    destruct (api_key_resource.Create_scan _ _ _) as [key|]; [|now left].
    cbn. intros H. injection H as <-. right. now eexists.
  - intros r req resp w m. rewrite resource_Read_run. cbv zeta.
    destruct (diag.HasError _); [now left|].
    destruct (client.GetKeys env _ w) as [[result|err] w1]; [|now left].
    destruct (client.GetKey_scan _ _) as [key|]; [|discriminate].
    cbn. intros H. injection H as <-. right. now eexists.
  - intros d req resp w m. unfold api_key_data_source.Read.
    destruct (api_key_data_source.Config_Get req) as [diags data]. cbv beta iota zeta.
    destruct (diag.HasError _); [now left|].
    destruct (negb _ && negb _); [now left|].
    unfold bind.
    destruct (if api_key_data_source.hasAccessToken data
              then client.GetKeyByAccessToken env (api_key_data_source.client d)
                     (types.ValueString (api_key_data_source.AccessToken data))
              else client.FindKeyByAppName env (api_key_data_source.client d)
                     (types.ValueString (api_key_data_source.AppName data)))
      as [[[key|]|err] w']; [|now left|now left].
    cbn. intros H. injection H as <-. right. now eexists.
Qed.

End StateExtras.

(** * Concrete runs of the further properties *)

Lemma GetKeys_returns_list_iff_witness :
  fst (client.GetKeys fake.env fake.c (fake.world [fake.respond 200 "keys: 1"]))
  = Ok (fake.keys [fake.token1]).
Proof.
  apply (GetKeys_returns_list_iff fake.env fake.c (fake.world [fake.respond 200 "keys: 1"])).
  split; [reflexivity|].
  exists {| StatusCode := 200; Body := "keys: 1" |}. repeat split.
Defined.

(** A refused connection during a deletion, and an endpoint that is no
    URL. *)
Lemma failure_before_response_witness :
  operation_error fake.env fake.c (OpDeleteKey "token-1")
    (fake.world [Err "connection reset"])
  = Some "failed to execute request: connection reset"
  /\ operation_error fake.env (client.NewClient "http://local host" "test-key") OpGetKeys
       (fake.world [])
     = Some "failed to create request: invalid character in host name".
Proof.
  split.
  - destruct (failure_before_response fake.env fake.c (OpDeleteKey "token-1")
                (fake.world [Err "connection reset"])) as [_ Hsend].
    apply (Hsend "connection reset"); reflexivity.
  - destruct (failure_before_response fake.env
                (client.NewClient "http://local host" "test-key") OpGetKeys
                (fake.world [])) as [Hbuild _].
    apply (Hbuild "invalid character in host name"). reflexivity.
Defined.

Lemma distinct_values_distinct_targets_witness :
  create_path "App One" <> create_path "App Two"
  /\ delete_path "token-1" <> delete_path "token-2".
Proof.
  split.
  - apply (distinct_values_distinct_targets "App One" "App Two"). discriminate.
  - apply (distinct_values_distinct_targets "token-1" "token-2"). discriminate.
Defined.

Lemma lookups_agree_on_unique_names_witness :
  fst (client.FindKeyByAppName fake.env fake.c (client.AppName fake.token2)
         (fake.world [fake.respond 200 "keys: 1 2"]))
  = Ok (Some fake.token2).
Proof.
  apply (lookups_agree_on_unique_names fake.env fake.c
           (fake.world [fake.respond 200 "keys: 1 2"])
           (fake.keys [fake.token1; fake.token2]) "token-2" fake.token2).
  - reflexivity.
  - apply NoDup_cons. split; [|apply NoDup_cons; split; [|apply NoDup_nil_2]].
    + rewrite list_elem_of_In. simpl. intros [H|[]]. discriminate H.
    + rewrite list_elem_of_In. simpl. tauto.
  - reflexivity.
Defined.

Lemma authentication_failure_reports_witness :
  exists msg : error,
    fst (client.NewClientWithAuthAndConfig fake.env "http://localhost:8096/" "admin" "wrong"
           None (fake.world [fake.respond 401 "Unauthorized"])) = Err msg
    /\ reports msg {| StatusCode := 401; Body := "Unauthorized" |}.
Proof.
  destruct (authentication_failure_reports fake.env "http://localhost:8096/" "admin" "wrong"
              None (fake.world [fake.respond 401 "Unauthorized"]) eq_refl)
    as (_ & Hstatus & _).
  apply (Hstatus {| StatusCode := 401; Body := "Unauthorized" |}); [reflexivity|].
  simpl. lia.
Defined.

Lemma credentials_travel_in_the_body_only_witness :
  List.map request_line
    [authentication_request fake.env "http://localhost:8096/" "admin" "pw" None]
  = List.map request_line
      [authentication_request fake.env "http://localhost:8096/" "root" "secret" None].
Proof.
  apply (credentials_travel_in_the_body_only fake.env "http://localhost:8096/"
           "admin" "pw" "root" "secret" None (fake.world [fake.respond 200 "auth: secret"])
           [authentication_request fake.env "http://localhost:8096/" "admin" "pw" None]
           [authentication_request fake.env "http://localhost:8096/" "root" "secret" None]);
    reflexivity.
Defined.

(** The key of the state is gone from the server: the refresh removes the
    resource. *)
Lemma Read_follows_the_listing_witness :
  let outcome :=
    fst (api_key_resource_Read.Read fake.env fake.resource0 (fake.refresh fake.state2)
           (fake.prior_state fake.state2) (fake.world [fake.respond 200 "keys: 1"])) in
  api_key_resource_Read.Diagnostics outcome = []
  /\ api_key_resource_Read.State outcome = None.
Proof.
  cbv zeta.
  pose proof (Read_follows_the_listing fake.env fake.resource0 (fake.refresh fake.state2)
                (fake.prior_state fake.state2) (fake.world [fake.respond 200 "keys: 1"])
                eq_refl) as [_ H].
  vm_compute in H. destruct H as [Hdiag [[_ Hstate]|(key & _ & Hstate)]].
  - split; [exact Hdiag | exact Hstate].
  - discriminate Hstate.
Defined.

Lemma Read_is_idempotent_witness :
  api_key_resource_Read.State
    (fst (api_key_resource_Read.Read fake.env fake.resource0
            {| api_key_resource_Read.State_Get := ([], fake.state2) |}
            (fake.prior_state fake.state2) (fake.world [fake.respond 200 "keys: 1 2 3"])))
  = Some fake.state2.
Proof.
  apply (Read_is_idempotent fake.env fake.resource0 (fake.refresh fake.state2)
           (fake.prior_state fake.state2) (fake.prior_state fake.state2)
           (fake.world [fake.respond 200 "keys: 1 2 3"])
           (fake.world [fake.respond 200 "keys: 1 2 3"])
           (fake.keys [fake.token1; fake.token2; fake.token3])
           (fake.keys [fake.token1; fake.token2; fake.token3]) fake.state2);
    reflexivity.
Defined.

Lemma refresh_after_create_is_stable_witness :
  exists m : api_key_resource.APIKeyResourceModel,
    api_key_resource.State
      (fst (api_key_resource.Create fake.env fake.resource0 (fake.plan "App Two")
              fake.no_state (fake.world fake.creation))) = Some m
    /\ api_key_resource_Read.State
         (fst (api_key_resource_Read.Read fake.env fake.resource0
                 {| api_key_resource_Read.State_Get := ([], m) |}
                 (fake.prior_state fake.state2)
                 (fake.world [fake.respond 200 "keys: 1 2"])))
       = Some m.
Proof.
  apply (refresh_after_create_is_stable fake.env fake.resource0 (fake.plan "App Two")
           fake.no_state (fake.world fake.creation)
           (snd (client.GetKeys fake.env fake.c (fake.world fake.creation)))
           (snd (client.CreateKey fake.env fake.c "App Two"
                   (snd (client.GetKeys fake.env fake.c (fake.world fake.creation)))))
           (snd (client.GetKeys fake.env fake.c
                   (snd (client.CreateKey fake.env fake.c "App Two"
                           (snd (client.GetKeys fake.env fake.c
                                   (fake.world fake.creation)))))))
           (fake.world [fake.respond 200 "keys: 1 2"])
           (fake.keys [fake.token1]) (fake.keys [fake.token1; fake.token2])
           (fake.keys [fake.token1; fake.token2]) "App Two");
    try (vm_compute; reflexivity).
  apply NoDup_cons. split; [|apply NoDup_cons; split; [|apply NoDup_nil_2]].
  - rewrite list_elem_of_In. simpl. intros [H|[]]. discriminate H.
  - rewrite list_elem_of_In. simpl. tauto.
Defined.

Lemma Delete_targets_the_access_token_witness :
  let outcome :=
    api_key_resource_Delete.Delete fake.env fake.resource0 (fake.destroy fake.state2)
      (fake.destroying fake.state2) (fake.world [fake.respond 204 ""]) in
  issues (fake.world [fake.respond 204 ""]) (snd outcome)
    [authorized_request fake.c MethodDelete "/Auth/Keys/token-2"]
  /\ diag.HasError (api_key_resource_Delete.Diagnostics (fst outcome)) = false.
Proof.
  cbv zeta.
  destruct (Delete_targets_the_access_token fake.env fake.resource0
              (fake.destroy fake.state2) (fake.destroying fake.state2)
              (fake.world [fake.respond 204 ""]) eq_refl) as (_ & Hissues & Hstatus).
  split; [exact Hissues|].
  apply (Hstatus {| StatusCode := 204; Body := "" |}); [reflexivity|]. now right.
Defined.

Lemma no_creation_after_a_failed_listing_witness :
  Forall (fun q => Method_ q = MethodGet)
    [authorized_request fake.c MethodGet "/Auth/Keys"]
  /\ (List.length [authorized_request fake.c MethodGet "/Auth/Keys"] <= 1)%nat.
Proof.
  apply (no_creation_after_a_failed_listing fake.env fake.resource0 (fake.plan "My App")
           fake.no_state (fake.world [fake.respond 500 "boom"; fake.respond 204 ""])).
  - right. vm_compute. exact I.
  - reflexivity.
Defined.

(** A query by the name [App Two], which two listed keys carry: the state
    written has that name. *)
Lemma Read_answers_the_query_witness :
  api_key_data_source.State
    (fst (api_key_data_source.Read fake.env fake.datasource0
            (fake.query (types.StringValue "App Two") types.StringNull) fake.no_data
            (fake.world [fake.respond 200 "keys: 1 2 3"])))
  = Some {| api_key_data_source.ID := types.StringValue "token-2";
            api_key_data_source.AppName := types.StringValue "App Two";
            api_key_data_source.AccessToken := types.StringValue "token-2";
            api_key_data_source.DateCreated := types.StringValue "2024-01-02T00:00:00Z" |}
  /\ api_key_data_source.AppName
       {| api_key_data_source.ID := types.StringValue "token-2";
          api_key_data_source.AppName := types.StringValue "App Two";
          api_key_data_source.AccessToken := types.StringValue "token-2";
          api_key_data_source.DateCreated := types.StringValue "2024-01-02T00:00:00Z" |}
     = types.StringValue "App Two".
Proof.
  split; [reflexivity|].
  destruct (Read_answers_the_query fake.env fake.datasource0
              (fake.query (types.StringValue "App Two") types.StringNull) fake.no_data
              (fake.world [fake.respond 200 "keys: 1 2 3"])
              {| api_key_data_source.ID := types.StringValue "token-2";
                 api_key_data_source.AppName := types.StringValue "App Two";
                 api_key_data_source.AccessToken := types.StringValue "token-2";
                 api_key_data_source.DateCreated :=
                   types.StringValue "2024-01-02T00:00:00Z" |}
              eq_refl eq_refl) as [_ Hname].
  apply Hname. reflexivity.
Defined.

Lemma Read_of_a_missing_key_is_an_error_witness :
  let outcome :=
    fst (api_key_data_source.Read fake.env fake.datasource0
           (fake.query types.StringNull (types.StringValue "missing")) fake.no_data
           (fake.world [fake.respond 200 "keys: 1 2"])) in
  In (error_diagnostic "API Key Not Found" "The specified API key was not found.")
    (api_key_data_source.Diagnostics outcome)
  /\ diag.HasError (api_key_data_source.Diagnostics outcome) = true
  /\ api_key_data_source.State outcome = None.
Proof.
  apply (Read_of_a_missing_key_is_an_error fake.env fake.datasource0
           (fake.query types.StringNull (types.StringValue "missing")) fake.no_data
           (fake.world [fake.respond 200 "keys: 1 2"])
           (fake.keys [fake.token1; fake.token2])); try reflexivity.
  repeat constructor; discriminate.
Defined.

Lemma Configure_reports_every_missing_value_witness :
  let outcome :=
    fst (provider.Configure fake.env fake.Getenv_unset
           (fake.provider_config (types.StringValue "http://localhost:8096")
              types.StringNull types.StringNull)
           fake.unconfigured (fake.world [fake.respond 200 "auth: secret"])) in
  In (error_diagnostic "Missing Jellyfin Username" provider.missing_username_detail)
    (provider.Diagnostics outcome)
  /\ In (error_diagnostic "Missing Jellyfin Password" provider.missing_password_detail)
       (provider.Diagnostics outcome)
  /\ provider.ResourceData outcome = framework.AnyNil.
Proof.
  cbv zeta.
  destruct (Configure_reports_every_missing_value fake.env fake.Getenv_unset
              (fake.provider_config (types.StringValue "http://localhost:8096")
                 types.StringNull types.StringNull)
              fake.unconfigured (fake.world [fake.respond 200 "auth: secret"]) eq_refl)
    as (_ & _ & _ & Hdata & _ & Huser & Hpass).
  { right. left. reflexivity. }
  split; [apply Huser; reflexivity|]. split; [apply Hpass; reflexivity | exact Hdata].
Defined.

Lemma configuration_takes_precedence_witness :
  provider.Configure fake.env fake.Getenv
    (fake.provider_config (types.StringValue "http://jellyfin:8096")
       (types.StringValue "root") (types.StringValue "secret"))
    fake.unconfigured (fake.world [fake.respond 200 "auth: secret"])
  = provider.Configure fake.env fake.Getenv_unset
      (fake.provider_config (types.StringValue "http://jellyfin:8096")
         (types.StringValue "root") (types.StringValue "secret"))
      fake.unconfigured (fake.world [fake.respond 200 "auth: secret"]).
Proof.
  apply (configuration_takes_precedence fake.env fake.Getenv fake.Getenv_unset);
    discriminate.
Defined.

(** A provider configured from the environment alone. *)
Lemma configured_client_reaches_the_callbacks_witness :
  let outcome :=
    fst (provider.Configure fake.env fake.Getenv
           (fake.provider_config types.StringNull types.StringNull types.StringNull)
           fake.unconfigured (fake.world [fake.respond 200 "auth: secret"])) in
  exists c : client.Client,
    fst (api_key_resource_Configure.Configure None
           {| api_key_resource_Configure.ProviderData := provider.ResourceData outcome |}
           {| api_key_resource_Configure.Diagnostics := [] |}) = Some c
    /\ fst (api_key_data_source_Configure.Configure None
              {| api_key_data_source_Configure.ProviderData :=
                   provider.DataSourceData outcome |}
              {| api_key_data_source_Configure.Diagnostics := [] |}) = Some c
    /\ client.endpoint c = "http://localhost:8096".
Proof.
  cbv zeta.
  destruct (configured_client_reaches_the_callbacks fake.env fake.Getenv
              (fake.provider_config types.StringNull types.StringNull types.StringNull)
              fake.unconfigured (fake.world [fake.respond 200 "auth: secret"])
              None None
              {| api_key_resource_Configure.Diagnostics := [] |}
              {| api_key_data_source_Configure.Diagnostics := [] |} eq_refl)
    as (c & Hauth & _ & _ & _ & Hresource & Hdatasource).
  exists c. rewrite Hresource, Hdatasource. cbn [fst].
  split; [reflexivity|]. split; [reflexivity|].
  vm_compute in Hauth. now injection Hauth as <-.
Defined.

Lemma written_state_identifies_by_access_token_witness :
  api_key_resource.State fake.no_state = Some fake.state2
  \/ exists token,
       api_key_resource.ID fake.state2 = types.StringValue token
       /\ api_key_resource.AccessToken fake.state2 = types.StringValue token.
Proof.
  destruct (written_state_identifies_by_access_token fake.env) as (Hcreate & _ & _).
  apply (Hcreate fake.resource0 (fake.plan "App Two") fake.no_state
           (fake.world fake.creation) fake.state2).
  reflexivity.
Defined.
